(** * CSV2GeoJSON: region assignment and marker emission

    A shallow embedding of [csv2geojson.py]: the classes [GeoBoundary],
    [DictCSV] and [CSV2GeoJSON], with the properties of the specification
    stated and proved over them.

    Conventions of the embedding.
    - A Python [float] / [numpy.float64] is a primitive binary64 [float]; the
      comparisons [<] and [==] are [PrimFloat.ltb] and [PrimFloat.eqb].
    - A parsed JSON document (the result of [json.loads]) is a [json] value;
      a Python [dict] is the list of its items in insertion order.
    - A Python exception is a constructor of [exn]; code that can raise
      returns a [result].
    - What the program calls in [shapely], [numpy] and the builtins is not
      part of the program: it is taken through the classes [Shapely],
      [Numpy] and [Builtins]. *)

From Stdlib Require Import List String Ascii ZArith Lia Bool PeanoNat.
From Stdlib Require Import Floats Uint63 DecimalString DecimalNat.
Import ListNotations.

Set Warnings "-register-all".

#[local] Open Scope string_scope.
#[local] Open Scope list_scope.

(* ================================================================= *)
(** ** Python values, exceptions and dictionaries *)

(** The exceptions the program can raise. *)
Inductive exn : Type :=
| KeyError        (* d[k] with k not in d *)
| IndexError      (* l[i] with i out of range *)
| TypeError       (* subscripting or iterating a value that does not support it *)
| ValueError      (* float() of an unparsable string, min() of an empty list,
                     numpy on a ragged table *)
| StopIteration   (* next() on an exhausted reader *)
| ShapelyError.   (* anything raised inside shapely *)

Inductive result (A : Type) : Type :=
| Ok (a : A)
| Raise (e : exn).

Arguments Ok {A} a.
Arguments Raise {A} e.

Definition bind {A B} (m : result A) (k : A -> result B) : result B :=
  match m with
  | Ok a => k a
  | Raise e => Raise e
  end.

Notation "x <- m ;; k" := (bind m (fun x => k))
  (at level 61, m at next level, right associativity).
Notation "' pat <- m ;; k" := (bind m (fun x => match x with pat => k end))
  (at level 61, pat pattern, m at next level, right associativity).

Definition is_ok {A} (m : result A) : bool :=
  match m with Ok _ => true | Raise _ => false end.

(** [[f(x) for x in l]]: the first exception aborts the comprehension. *)
Fixpoint mapM {A B} (f : A -> result B) (l : list A) : result (list B) :=
  match l with
  | [] => Ok []
  | x :: l' => y <- f x ;; ys <- mapM f l' ;; Ok (y :: ys)
  end.

(** A JSON document as [json.loads] returns it; also the type of the values
    a record holds ([str] cells, and whatever [shapeName] is). *)
Inductive json : Type :=
| JNull
| JBool (b : bool)
| JInt (z : Z)
| JFloat (f : float)
| JString (s : string)
| JArray (l : list json)
| JObject (items : list (string * json)).

(** A Python [dict] with [str] keys: its items in insertion order. *)
Definition dict (V : Type) : Type := list (string * V).

Fixpoint dict_get {V} (d : dict V) (k : string) : option V :=
  match d with
  | [] => None
  | (k', v) :: d' => if String.eqb k' k then Some v else dict_get d' k
  end.

(** [d[k] = v]: an existing key keeps its position, a new key goes last. *)
Fixpoint dict_set {V} (d : dict V) (k : string) (v : V) : dict V :=
  match d with
  | [] => [(k, v)]
  | (k', v') :: d' =>
      if String.eqb k' k then (k', v) :: d' else (k', v') :: dict_set d' k v
  end.

Definition keys {V} (d : dict V) : list string := map fst d.

(** [dict(zip(ks, vs))]: [zip] stops at the shorter argument, a repeated
    key keeps its first position and its last value. *)
Definition dict_zip {V} (ks : list string) (vs : list V) : dict V :=
  fold_left (fun d kv => dict_set d (fst kv) (snd kv)) (combine ks vs) [].

(** [d[k]] as an expression. *)
Definition dict_item {V} (d : dict V) (k : string) : result V :=
  match dict_get d k with
  | Some v => Ok v
  | None => Raise KeyError
  end.

(** [l[i]] for a list and a non-negative index. *)
Definition list_item {A} (l : list A) (i : nat) : result A :=
  match nth_error l i with
  | Some a => Ok a
  | None => Raise IndexError
  end.

(** [l[i] = a]. *)
Fixpoint list_update {A} (l : list A) (i : nat) (a : A) : list A :=
  match l, i with
  | [], _ => []
  | _ :: l', O => a :: l'
  | x :: l', S i' => x :: list_update l' i' a
  end.

Definition list_setitem {A} (l : list A) (i : nat) (a : A) : result (list A) :=
  if Nat.ltb i (List.length l) then Ok (list_update l i a) else Raise IndexError.

(** [v[k]] for a string key, on a JSON value. *)
Definition getitem (v : json) (k : string) : result json :=
  match v with
  | JObject items => dict_item items k
  | _ => Raise TypeError
  end.

Definition chars (s : string) : list json :=
  map (fun c => JString (String c EmptyString)) (list_ascii_of_string s).

(** [v[i]] for an integer index. *)
Definition getitem_int (v : json) (i : nat) : result json :=
  match v with
  | JArray l => list_item l i
  | JString s => list_item (chars s) i
  | JObject _ => Raise KeyError
  | _ => Raise TypeError
  end.

(** [for x in v]: what iterating a JSON value yields. *)
Definition iter (v : json) : result (list json) :=
  match v with
  | JArray l => Ok l
  | JObject items => Ok (map JString (keys items))
  | JString s => Ok (chars s)
  | _ => Raise TypeError
  end.

(** A [str] is held as the bytes of its UTF-8 encoding: a character is a
    byte that is not a continuation byte ([10xxxxxx]) with the
    continuation bytes that follow it. *)
Definition continuation (c : ascii) : bool :=
  match c with
  | Ascii _ _ _ _ _ _ b6 b7 => b7 && negb b6
  end.

(** [len(s)]: the number of characters. *)
Fixpoint py_len (s : string) : nat :=
  match s with
  | EmptyString => 0
  | String c s' => (if continuation c then 0 else 1) + py_len s'
  end.

(** [s[:w]]: the first [w] characters. *)
Fixpoint py_prefix (w : nat) (s : string) : string :=
  match s with
  | EmptyString => EmptyString
  | String c s' =>
      if continuation c then String c (py_prefix w s')
      else match w with
           | O => EmptyString
           | S w' => String c (py_prefix w' s')
           end
  end.

(** [f'{n}'] for a non-negative integer. *)
Definition str_of_nat (n : nat) : string :=
  NilEmpty.string_of_uint (Nat.to_uint n).

(* ================================================================= *)
(** ** The libraries the program calls *)

Record Point : Type := mkPoint { px : float; py : float }.

(** [shapely]: geometries, their construction from a GeoJSON geometry,
    the containment predicate and the nearest-points operation. *)
Class Shapely : Type := {
  Shape : Type;
  (** [shapely.geometry.shape(g)] *)
  shape : json -> result Shape;
  (** [s.contains(p)] *)
  contains : Shape -> Point -> bool;
  (** [shapely.ops.nearest_points(s, p)]: a point of [s] and a point of [p] *)
  nearest_points : Shape -> Point -> result (Point * Point)
}.

(** [numpy]'s elementary functions on a float64 scalar. *)
Class Numpy : Type := {
  np_deg2rad : float -> float;
  np_sin : float -> float;
  np_cos : float -> float;
  np_power : float -> Z -> float;
  np_arctan2 : float -> float -> float
}.

(** [numpy.sqrt] on a float64 scalar is the correctly rounded square root of
    IEEE 754. *)
Definition np_sqrt (x : float) : float := PrimFloat.sqrt x.

(** The builtins [float()] and [str()]. *)
Class Builtins : Type := {
  py_float : json -> result float;
  py_str : json -> string
}.

(* ================================================================= *)
(** ** class GeoBoundary *)

Module GeoBoundary.
Section WithLibraries.
Context {shapely : Shapely} {numpy : Numpy}.

#[local] Open Scope float_scope.

(** The attributes [data], [places] and [shapes]. *)
Record t : Type := mk {
  data : json;
  places : json;
  shapes : list Shape
}.

(** [__to_shape(feature)] *)
Definition to_shape (feature : json) : result Shape :=
  g <- getitem feature "geometry" ;;
  shape g.

(** [__init__], from the parsed content of the file. *)
Definition init (file : json) : result t :=
  places <- getitem file "features" ;;
  features <- iter places ;;
  shapes <- mapM to_shape features ;;
  Ok {| data := file; places := places; shapes := shapes |}.

(** [__haversine(pt1, pt2)].  [6371 * 2] is an integer product, turned
    into a float by the multiplication with [arctan2]'s result. *)
Definition haversine (pt1 pt2 : Point) : float :=
  let lng1 := np_deg2rad (px pt1) in
  let lat1 := np_deg2rad (py pt1) in
  let lng2 := np_deg2rad (px pt2) in
  let lat2 := np_deg2rad (py pt2) in
  let dlat := lat2 - lat1 in
  let dlng := lng2 - lng1 in
  let sindlat2 := np_power (np_sin (dlat / 2)) 2 in
  let sindlng2 := np_power (np_sin (dlng / 2)) 2 in
  let coslat1 := np_cos lat1 in
  let coslat2 := np_cos lat2 in
  let alpha := sindlat2 + coslat1 * coslat2 * sindlng2 in
  of_uint63 (6371 * 2)%uint63 * np_arctan2 (np_sqrt alpha) (np_sqrt (1 - alpha)).

(** [min(l)]: the first element is the candidate, a later element
    replaces it when it is [<] the candidate.  The result is one of the
    objects of the list: it is returned with its position. *)
Fixpoint min_from (best : nat * float) (idx : nat) (l : list float)
  : nat * float :=
  match l with
  | [] => best
  | item :: l' =>
      min_from (if item <? snd best then (idx, item) else best) (S idx) l'
  end.

Definition py_min (l : list float) : result (nat * float) :=
  match l with
  | [] => Raise ValueError
  | item :: l' => Ok (min_from (0%nat, item) 1 l')
  end.

(** [l.index(v)]: the position of the first element that is the object
    [v] or compares [==] to it. *)
Fixpoint index_from (v : nat * float) (idx : nat) (l : list float)
  : result nat :=
  match l with
  | [] => Raise ValueError
  | item :: l' =>
      if Nat.eqb idx (fst v) || (item =? snd v) then Ok idx
      else index_from v (S idx) l'
  end.

Definition index (l : list float) (v : nat * float) : result nat :=
  index_from v 0 l.

(** [[self.places[idx] for idx, i in enumerate(self.shapes)
      if i.contains(point)]], from position [idx] on. *)
Fixpoint search_from (places : json) (point : Point) (idx : nat)
    (shapes : list Shape) : result (list json) :=
  match shapes with
  | [] => Ok []
  | i :: rest =>
      if contains i point then
        place <- getitem_int places idx ;;
        others <- search_from places point (S idx) rest ;;
        Ok (place :: others)
      else search_from places point (S idx) rest
  end.

(** The distances of the fallback. *)
Definition distances (self : t) (point : Point) : result (list float) :=
  nearests <- mapM (fun i => nearest_points i point) (shapes self) ;;
  Ok (map (fun i => haversine (fst i) point) nearests).

(** [find(point)] *)
Definition find (self : t) (point : Point) : result (list json) :=
  search <- search_from (places self) point 0 (shapes self) ;;
  if Nat.eqb (List.length search) 0 then
    ds <- distances self point ;;
    m <- py_min ds ;;
    idx <- index ds m ;;
    place <- getitem_int (places self) idx ;;
    Ok [place]
  else Ok search.

(** What [dumps] hands to [json.dumps]. *)
Definition dumps (self : t) : json := data self.

End WithLibraries.
End GeoBoundary.

(* ================================================================= *)
(** ** class DictCSV *)

Module DictCSV.
Section WithBuiltins.
Context {builtins : Builtins}.

(** A column of [cols]: a column of the numpy table (fixed-width unicode,
    [width] characters) or the Python list [add_col] creates. *)
Inductive column : Type :=
| NpColumn (width : nat) (cells : list string)
| PyColumn (cells : list json).

Record t : Type := mk {
  header : list string;
  rows : list (dict json);
  cols : dict column
}.

(** [np.array(list(reader))]: no row gives an empty array; rows of one
    length give a two-dimensional array of strings; rows of different
    lengths are refused. *)
Definition np_array (body : list (list string)) : result (list (list string)) :=
  match body with
  | [] => Ok []
  | first :: _ =>
      if forallb (fun r => Nat.eqb (List.length r) (List.length first)) body
      then Ok body
      else Raise ValueError
  end.

(** The width of the array's unicode dtype, in characters: that of the
    longest cell, and 1 when every cell is empty. *)
Definition itemsize (table : list (list string)) : nat :=
  fold_left Nat.max (map py_len (List.concat table)) 1.

(** [table.T], iterated: the columns. *)
Definition transpose (table : list (list string)) : list (list string) :=
  match table with
  | [] => []
  | first :: _ =>
      map (fun j => map (fun r => nth j r "") table) (seq 0 (List.length first))
  end.

(** [__init__], from the rows [csv.reader] yields. *)
Definition init (reader : list (list string)) : result t :=
  match reader with
  | [] => Raise StopIteration
  | header :: body =>
      table <- np_array body ;;
      Ok {| header := header;
            rows := map (fun i => dict_zip header (map JString i)) table;
            cols := dict_zip header
                      (map (NpColumn (itemsize table)) (transpose table)) |}
  end.

(** [add_col(name)] *)
Definition add_col (self : t) (name : string) : t :=
  let header := header self ++ [name] in
  let rows := map (fun row => dict_set row name (JString "")) (rows self) in
  {| header := header;
     rows := rows;
     cols := dict_set (cols self) name
               (PyColumn (map (fun _ => JString "") rows)) |}.

(** [get_row(row_id)] *)
Definition get_row (self : t) (row_id : nat) : result (dict json) :=
  list_item (rows self) row_id.

(** What a numpy unicode array of width [w] stores for [v]: the first [w]
    characters of its text. *)
Definition np_str (w : nat) (v : json) : string :=
  py_prefix w (match v with JString s => s | _ => py_str v end).

(** [c[row_id] = v] *)
Definition column_setitem (c : column) (row_id : nat) (v : json)
  : result column :=
  match c with
  | NpColumn w cells =>
      cells' <- list_setitem cells row_id (np_str w v) ;;
      Ok (NpColumn w cells')
  | PyColumn cells =>
      cells' <- list_setitem cells row_id v ;;
      Ok (PyColumn cells')
  end.

(** [for k in ks: self.cols[k][row_id] = row[k]] *)
Fixpoint set_cols (cols : dict column) (ks : list string) (row_id : nat)
    (row : dict json) : result (dict column) :=
  match ks with
  | [] => Ok cols
  | k :: ks' =>
      v <- dict_item row k ;;
      c <- dict_item cols k ;;
      c' <- column_setitem c row_id v ;;
      set_cols (dict_set cols k c') ks' row_id row
  end.

(** [set_row(row_id, row)] *)
Definition set_row (self : t) (row_id : nat) (row : dict json) : result t :=
  rows' <- list_setitem (rows self) row_id row ;;
  cols' <- set_cols (cols self) (header self) row_id row ;;
  Ok {| header := header self; rows := rows'; cols := cols' |}.

(** [cell == value] for a string [value]: a cell that is not a string is
    never equal to a string. *)
Definition cell_eq (cell : json) (value : string) : bool :=
  match cell with
  | JString s => String.eqb s value
  | _ => false
  end.

(** [[row for row in rows if row[col] == value]] *)
Fixpoint select_rows (rows : list (dict json)) (col value : string)
  : result (list (dict json)) :=
  match rows with
  | [] => Ok []
  | row :: rest =>
      cell <- dict_item row col ;;
      others <- select_rows rest col value ;;
      Ok (if cell_eq cell value then row :: others else others)
  end.

(** [get_rows_by_col(col, value)], for a string [value]. *)
Definition get_rows_by_col (self : t) (col value : string)
  : result (list (dict json)) :=
  select_rows (rows self) col value.

(** What [dump] hands to [csv.writer]: the header, then every row's values. *)
Definition dump (self : t) : list (list json) :=
  map JString (header self) :: map (map snd) (rows self).

End WithBuiltins.
End DictCSV.

(* ================================================================= *)
(** ** class CSV2GeoJSON *)

Module CSV2GeoJSON.
Section WithLibraries.
Context {shapely : Shapely} {numpy : Numpy} {builtins : Builtins}.

Record t : Type := mk {
  boundaries : list GeoBoundary.t;
  csv : DictCSV.t;
  long_col : string;
  lat_col : string
}.

(** [f'_geo_admin{level}'] *)
Definition col_name (level : nat) : string :=
  "_geo_admin" ++ str_of_nat level.

(** [[*map(float, [row[long_col], row[lat_col]])]]: both cells are read
    before the first conversion. *)
Definition point_of (long_col lat_col : string) (row : dict json)
  : result Point :=
  lng <- dict_item row long_col ;;
  lat <- dict_item row lat_col ;;
  x <- py_float lng ;;
  y <- py_float lat ;;
  Ok (mkPoint x y).

(** [boundary.find(point)[0]["properties"]["shapeName"]] *)
Definition region_of (boundary : GeoBoundary.t) (point : Point)
  : result json :=
  found <- GeoBoundary.find boundary point ;;
  first <- list_item found 0 ;;
  properties <- getitem first "properties" ;;
  getitem properties "shapeName".

(** The body of the loop over the rows. *)
Definition join_row (boundary : GeoBoundary.t) (long_col lat_col col : string)
    (csv : DictCSV.t) (row_id : nat) (row : dict json) : result DictCSV.t :=
  point <- point_of long_col lat_col row ;;
  region <- region_of boundary point ;;
  DictCSV.set_row csv row_id (dict_set row col region).

(** [for row_id, row in enumerate(self.csv.rows)], from [row_id] on.  The
    list iterated is the one [set_row] assigns into, so each row is read
    from the current state; [todo] bounds the rows left. *)
Fixpoint join_rows (boundary : GeoBoundary.t) (long_col lat_col col : string)
    (csv : DictCSV.t) (row_id todo : nat) : result DictCSV.t :=
  match todo with
  | O => Ok csv
  | S todo' =>
      match nth_error (DictCSV.rows csv) row_id with
      | None => Ok csv
      | Some row =>
          csv' <- join_row boundary long_col lat_col col csv row_id row ;;
          join_rows boundary long_col lat_col col csv' (S row_id) todo'
      end
  end.

(** [for level, boundary in enumerate(self.boundaries)], from [level] on. *)
Fixpoint join_levels (long_col lat_col : string) (csv : DictCSV.t)
    (level : nat) (boundaries : list GeoBoundary.t) : result DictCSV.t :=
  match boundaries with
  | [] => Ok csv
  | boundary :: rest =>
      let col := col_name level in
      let csv1 := DictCSV.add_col csv col in
      csv2 <- join_rows boundary long_col lat_col col csv1 0
                (List.length (DictCSV.rows csv1)) ;;
      join_levels long_col lat_col csv2 (S level) rest
  end.

(** [__init__], from the rows of the CSV file and the parsed boundary
    files. *)
Definition init (csv_file : list (list string)) (long_col lat_col : string)
    (boundary_files : list json) : result t :=
  boundaries <- mapM GeoBoundary.init boundary_files ;;
  csv <- DictCSV.init csv_file ;;
  if Nat.eqb (List.length boundary_files) 0 then
    Ok {| boundaries := boundaries; csv := csv;
          long_col := long_col; lat_col := lat_col |}
  else
    csv' <- join_levels long_col lat_col csv 0 boundaries ;;
    Ok {| boundaries := boundaries; csv := csv';
          long_col := long_col; lat_col := lat_col |}.

(** [__to_feature(row)] *)
Definition to_feature (self : t) (row : dict json) : result json :=
  lng <- (v <- dict_item row (long_col self) ;; py_float v) ;;
  lat <- (v <- dict_item row (lat_col self) ;; py_float v) ;;
  Ok (JObject
        [("type", JString "Feature");
         ("properties", JObject row);
         ("geometry",
          JObject [("coordinates", JArray [JFloat lng; JFloat lat]);
                   ("type", JString "Point")])]).

(** The features [dump_markers] builds. *)
Definition markers (self : t) : result (list json) :=
  mapM (to_feature self) (DictCSV.rows (csv self)).

(** What [dump_markers] hands to [json.dump]. *)
Definition dump_markers (self : t) : result json :=
  features <- markers self ;;
  Ok (JObject [("type", JString "FeatureCollection");
               ("features", JArray features)]).

(** What [dump_csv] writes. *)
Definition dump_csv (self : t) : list (list json) :=
  DictCSV.dump (csv self).

(** [main] after the parsing of the command line: the document written
    to the output file. *)
Definition main (input : list (list string)) (long lat : string)
    (boundary_files : list json) : result json :=
  geojson <- init input long lat boundary_files ;;
  dump_markers geojson.

End WithLibraries.
End CSV2GeoJSON.

(* ================================================================= *)
(** ** The command line of [main] *)

(** [s.split(sep)] for a separator of one character: the pieces between
    the separators, empty pieces included. *)
Fixpoint split (sep : ascii) (s : string) : list string :=
  match s with
  | EmptyString => [EmptyString]
  | String c s' =>
      if Ascii.eqb c sep then EmptyString :: split sep s'
      else match split sep s' with
           | [] => [String c EmptyString]
           | piece :: pieces => String c piece :: pieces
           end
  end.

(** [args.bounds.split(",") if args.bounds else []]: [None] and the empty
    string are falsy. *)
Definition boundary_files_of (bounds : option string) : list string :=
  match bounds with
  | None => []
  | Some EmptyString => []
  | Some s => split "," s
  end.

(* ================================================================= *)
(** ** Instances of the libraries, to run the program on examples *)

Module Examples.

#[local] Open Scope float_scope.

Definition float_of_Z (z : Z) : float :=
  match z with
  | Z0 => 0
  | Zpos _ => of_uint63 (Uint63.of_Z z)
  | Zneg n => - of_uint63 (Uint63.of_Z (Zpos n))
  end.

(** Axis-parallel rectangles: the bounding box of the exterior ring of a
    GeoJSON polygon. *)
Record box : Type := mkBox { xmin : float; ymin : float;
                             xmax : float; ymax : float }.

Definition number (v : json) : result float :=
  match v with
  | JFloat f => Ok f
  | JInt z => Ok (float_of_Z z)
  | _ => Raise ShapelyError
  end.

Definition position (v : json) : result (float * float) :=
  match v with
  | JArray [x; y] => a <- number x ;; b <- number y ;; Ok (a, b)
  | _ => Raise ShapelyError
  end.

Definition fmin (a b : float) : float := if a <? b then a else b.
Definition fmax (a b : float) : float := if a <? b then b else a.

Definition bounds (ring : list (float * float)) : result box :=
  match ring with
  | [] => Raise ShapelyError
  | (x, y) :: rest =>
      Ok (fold_left
            (fun b xy => mkBox (fmin (xmin b) (fst xy)) (fmin (ymin b) (snd xy))
                               (fmax (xmax b) (fst xy)) (fmax (ymax b) (snd xy)))
            rest (mkBox x y x y))
  end.

Definition box_of (g : json) : result box :=
  ty <- getitem g "type" ;;
  coordinates <- getitem g "coordinates" ;;
  match ty, coordinates with
  | JString "Polygon", JArray (JArray ring :: _) =>
      ps <- mapM position ring ;; bounds ps
  | _, _ => Raise ShapelyError
  end.

Definition inside (b : box) (p : Point) : bool :=
  (xmin b <? px p) && (px p <? xmax b) &&
  (ymin b <? py p) && (py p <? ymax b).

Definition clamp (lo hi x : float) : float := fmax lo (fmin hi x).

Definition nearest (b : box) (p : Point) : result (Point * Point) :=
  Ok (mkPoint (clamp (xmin b) (xmax b) (px p))
              (clamp (ymin b) (ymax b) (py p)), p).

Definition boxes : Shapely :=
  {| Shape := box; shape := box_of; contains := inside;
     nearest_points := nearest |}.

(** First-order stand-ins for the elementary functions. *)
Definition flat : Numpy :=
  {| np_deg2rad := fun x => x;
     np_sin := fun x => x;
     np_cos := fun _ => 1;
     np_power := fun x _ => x * x;
     np_arctan2 := fun y _ => abs y |}.

(** [float()] on unsigned decimal integers. *)
Definition float_of_string (s : string) : result float :=
  match NilEmpty.uint_of_string s with
  | Some d => match s with
              | "" => Raise ValueError
              | _ => Ok (float_of_Z (Z.of_nat (Nat.of_uint d)))
              end
  | None => Raise ValueError
  end.

Definition decimal : Builtins :=
  {| py_float := fun v =>
       match v with
       | JString s => float_of_string s
       | JFloat f => Ok f
       | JInt z => Ok (float_of_Z z)
       | JBool b => Ok (if b then 1 else 0)
       | _ => Raise TypeError
       end;
     py_str := fun _ => "" |}.

(** The boundary of the specification's scenario: one square named A. *)
Definition square : json :=
  JObject [("type", JString "Polygon");
           ("coordinates",
            JArray [JArray [JArray [JInt 0; JInt 0]; JArray [JInt 0; JInt 2];
                            JArray [JInt 2; JInt 2]; JArray [JInt 2; JInt 0];
                            JArray [JInt 0; JInt 0]]])].

Definition region_A : json :=
  JObject [("type", JString "Feature");
           ("properties", JObject [("shapeName", JString "A")]);
           ("geometry", square)].

Definition boundary_A : json :=
  JObject [("type", JString "FeatureCollection");
           ("features", JArray [region_A])].

(** A second level: two rectangles side by side. *)
Definition rectangle (x0 y0 x1 y1 : Z) : json :=
  JObject [("type", JString "Polygon");
           ("coordinates",
            JArray [JArray [JArray [JInt x0; JInt y0]; JArray [JInt x0; JInt y1];
                            JArray [JInt x1; JInt y1]; JArray [JInt x1; JInt y0];
                            JArray [JInt x0; JInt y0]]])].

Definition region (name : string) (g : json) : json :=
  JObject [("type", JString "Feature");
           ("properties", JObject [("shapeName", JString name)]);
           ("geometry", g)].

Definition boundary_WE : json :=
  JObject [("type", JString "FeatureCollection");
           ("features", JArray [region "W" (rectangle 0 0 1 2);
                                region "E" (rectangle 1 0 4 2)])].

(** A boundary whose only feature has no [shapeName]. *)
Definition unlabelled : json :=
  JObject [("type", JString "FeatureCollection");
           ("features",
            JArray [JObject [("type", JString "Feature");
                             ("properties", JObject []);
                             ("geometry", square)]])].

(** A boundary whose only feature is a point. *)
Definition origin : json :=
  JObject [("type", JString "Point");
           ("coordinates", JArray [JInt 0; JInt 0])].

Definition pointed : json :=
  JObject [("type", JString "FeatureCollection");
           ("features", JArray [region "O" origin])].



(** The name of a city whose second character, u with diaeresis, takes two
    bytes: six characters in seven bytes. *)
Definition zurich : string :=
  String "Z" (String "195" (String "188" "rich")).

(** A CSV file without a latitude column. *)
Definition no_latitude : list (list string) :=
  [["id"; "longitude"]; ["a"; "1"]].

(** A CSV file with two records. *)
Definition two_records : list (list string) :=
  [["id"; "longitude"; "latitude"]; ["a"; "1"; "1"]; ["b"; "10"; "10"]].

End Examples.

(* ================================================================= *)
(** ** Vocabulary of the properties *)

(** The regions whose shape contains [p], in load order. *)
Definition containing {shapely : Shapely} (features : list json)
    (shapes : list Shape) (p : Point) : list json :=
  map fst (filter (fun fs => contains (snd fs) p) (combine features shapes)).


(** What the proofs use of [numpy]'s functions: each holds of the
    functions of an IEEE 754 platform. *)
Record NumpyLaws (numpy : Numpy) : Prop := {
  deg2rad_finite :
    forall x, is_finite x = true -> is_finite (np_deg2rad x) = true;
  sin_0 : np_sin 0 = 0%float;
  sin_odd : forall x, np_sin (- x) = (- np_sin x)%float;
  power_0 : np_power 0 2 = 0%float;
  power_even : forall x, np_power (- x) 2 = np_power x 2;
  cos_range :
    forall x, is_finite x = true -> PrimFloat.leb (abs (np_cos x)) 1 = true;
  arctan2_0_1 : np_arctan2 0 1 = 0%float;
  (** [arctan2(y, x)] has the sign of [y] *)
  arctan2_sign :
    forall y x, get_sign y = false ->
                PrimFloat.ltb (np_arctan2 y x) 0 = false;
  arctan2_m0_1 : PrimFloat.ltb (np_arctan2 (-0) 1) 0 = false
}.

(** A point with finite coordinates. *)
Definition finite_point (p : Point) : Prop :=
  is_finite (px p) = true /\ is_finite (py p) = true.

(** The specification's valid boundary source, in its words: every feature
    has a geometry of type Polygon or MultiPolygon and a
    [properties.shapeName]. *)
Definition spec_valid_feature (f : json) : Prop :=
  (exists g, getitem f "geometry" = Ok g /\
             (getitem g "type" = Ok (JString "Polygon") \/
              getitem g "type" = Ok (JString "MultiPolygon"))) /\
  (exists properties name,
     getitem f "properties" = Ok properties /\
     getitem properties "shapeName" = Ok name).

Definition spec_valid_source (file : json) : Prop :=
  exists features,
    getitem file "features" = Ok (JArray features) /\
    Forall spec_valid_feature features.

(** A row has exactly the fields of the header. *)
Definition same_keys (row : dict json) (header : list string) : Prop :=
  forall k, In k (keys row) <-> In k header.

(** Every row of the table has exactly the fields of the header. *)
Definition uniform (csv : DictCSV.t) : Prop :=
  Forall (fun row => same_keys row (DictCSV.header csv)) (DictCSV.rows csv).

Definition column_length (c : DictCSV.column) : nat :=
  match c with
  | DictCSV.NpColumn _ cells => List.length cells
  | DictCSV.PyColumn cells => List.length cells
  end.

(** Unless the table is empty, [cols] has a column as long as [rows] for
    every field of the header. *)
Definition columns_ready (csv : DictCSV.t) : Prop :=
  DictCSV.rows csv = [] \/
  forall k, In k (DictCSV.header csv) ->
    exists c, dict_get (DictCSV.cols csv) k = Some c /\
              column_length c = List.length (DictCSV.rows csv).

(** [float(row[col])] *)
Definition coordinate {builtins : Builtins} (row : dict json) (col : string)
  : result float :=
  v <- dict_item row col ;; py_float v.

(** The point feature of a row with coordinates [x] and [y]. *)
Definition marker (row : dict json) (x y : float) : json :=
  JObject
    [("type", JString "Feature");
     ("properties", JObject row);
     ("geometry",
      JObject [("coordinates", JArray [JFloat x; JFloat y]);
               ("type", JString "Point")])].

(** A row with the fields of the levels [level], [level + 1], ... set to
    [names]. *)
Fixpoint augment (row : dict json) (level : nat) (names : list json)
  : dict json :=
  match names with
  | [] => row
  | name :: names' =>
      augment (dict_set row (CSV2GeoJSON.col_name level) name) (S level) names'
  end.

(** [pi / 180] in binary64: the factor of [numpy.deg2rad]. *)
Definition rad_per_degree : float := 0x1.1df46a2529d39p-6%float.

(** The value is zero or finite. *)
Definition SFfinite (x : spec_float) : bool :=
  match x with S754_zero _ | S754_finite _ _ _ => true | _ => false end.

(** The sign bit, [false] for NaN. *)
Definition SFsign (x : spec_float) : bool :=
  match x with
  | S754_zero s | S754_infinity s | S754_finite s _ _ => s
  | S754_nan => false
  end.

(** [row'] is [row] after one level of the join: the field [col] set to
    the name of the region its point resolves to. *)
Definition joined {shapely : Shapely} {numpy : Numpy} {builtins : Builtins}
    (boundary : GeoBoundary.t) (long_col lat_col col : string)
    (row row' : dict json) : Prop :=
  exists p name,
    CSV2GeoJSON.point_of long_col lat_col row = Ok p /\
    CSV2GeoJSON.region_of boundary p = Ok name /\
    row' = dict_set row col name.

(** Every row lists exactly the fields of the header, in its order. *)
Definition aligned (csv : DictCSV.t) : Prop :=
  Forall (fun row => keys row = DictCSV.header csv) (DictCSV.rows csv).

(** The cell [i] of a column, as a value. *)
Definition column_cell (c : DictCSV.column) (i : nat) : option json :=
  match c with
  | DictCSV.NpColumn _ cells => option_map JString (nth_error cells i)
  | DictCSV.PyColumn cells => nth_error cells i
  end.

(** A string has the character [c]. *)
Fixpoint has_char (c : ascii) (s : string) : bool :=
  match s with
  | EmptyString => false
  | String c' s' => Ascii.eqb c' c || has_char c s'
  end.

(** The number of occurrences of the character [c] in a string. *)
Fixpoint count_char (c : ascii) (s : string) : nat :=
  match s with
  | EmptyString => 0
  | String c' s' => (if Ascii.eqb c' c then 1 else 0) + count_char c s'
  end.

(** What a column keeps of [v] when [v] is assigned to one of its cells: a
    numpy column keeps a string of its width, a list keeps the value. *)
Definition stored {builtins : Builtins} (c : DictCSV.column) (v : json)
  : json :=
  match c with
  | DictCSV.NpColumn w _ => JString (DictCSV.np_str w v)
  | DictCSV.PyColumn _ => v
  end.

(** [cols] holds what [rows] holds: for every field of the header, the cell
    [i] of its column is the value of the field in row [i]. *)
Definition mirrored (csv : DictCSV.t) : Prop :=
  forall i row k,
    nth_error (DictCSV.rows csv) i = Some row ->
    In k (DictCSV.header csv) ->
    exists c v,
      dict_get (DictCSV.cols csv) k = Some c /\
      dict_get row k = Some v /\
      column_cell c i = Some v.

(** [mirrored], with values that their columns keep as they are. *)
Definition settled {builtins : Builtins} (csv : DictCSV.t) : Prop :=
  forall i row k,
    nth_error (DictCSV.rows csv) i = Some row ->
    In k (DictCSV.header csv) ->
    exists c v,
      dict_get (DictCSV.cols csv) k = Some c /\
      dict_get row k = Some v /\
      column_cell c i = Some v /\
      stored c v = v.

(* ================================================================= *)
(** ** The exception monad and the list operations *)

Lemma bind_ok {A B} (m : result A) (k : A -> result B) (b : B) :
  bind m k = Ok b <-> exists a, m = Ok a /\ k a = Ok b.
Proof.
  destruct m as [a|e]; simpl; split.
  - intros H. now exists a.
  - now intros (a' & [= <-] & H).
  - discriminate.
  - now intros (a' & [=] & _).
Qed.

Lemma bind_raise {A B} (m : result A) (k : A -> result B) (e : exn) :
  bind m k = Raise e <->
  m = Raise e \/ exists a, m = Ok a /\ k a = Raise e.
Proof.
  destruct m as [a|e']; simpl; split.
  - intros H. right. now exists a.
  - intros [[=]|(a' & [= <-] & H)]. exact H.
  - intros [= ->]. now left.
  - intros [[= ->]|(a' & [=] & _)]. reflexivity.
Qed.

(** Splits a hypothesis [bind m k = Ok b] into its two steps. *)
Ltac bind_inv H :=
  let a := fresh "a" in
  let Ha := fresh "E" in
  apply bind_ok in H; destruct H as (a & Ha & H).

Lemma is_ok_true {A} (m : result A) : is_ok m = true <-> exists a, m = Ok a.
Proof.
  destruct m; simpl; split; eauto; try discriminate.
  now intros (a' & [=]).
Qed.

Lemma mapM_Forall2 {A B} (f : A -> result B) (l : list A) (l' : list B) :
  mapM f l = Ok l' <-> Forall2 (fun x y => f x = Ok y) l l'.
Proof.
  revert l'. induction l as [|x l IH]; intros l'; simpl.
  - split.
    + intros [= <-]. constructor.
    + intros H. inversion H. reflexivity.
  - split.
    + intros H. bind_inv H. bind_inv H. injection H as <-.
      constructor; [assumption|]. now apply IH.
    + intros H. inversion H as [|x' y l1 l2 Hx Hl]; subst.
      rewrite Hx. simpl. apply IH in Hl. rewrite Hl. reflexivity.
Qed.

Lemma mapM_length {A B} (f : A -> result B) (l : list A) (l' : list B) :
  mapM f l = Ok l' -> List.length l' = List.length l.
Proof.
  intros H. apply mapM_Forall2 in H. symmetry. eapply Forall2_length, H.
Qed.


(** The comprehension raises what its first failing element raises. *)
Lemma mapM_first_raise {A B} (f : A -> result B) (l1 l2 : list A) (x : A)
    (e : exn) :
  (forall y, In y l1 -> exists b, f y = Ok b) ->
  f x = Raise e ->
  mapM f (l1 ++ x :: l2) = Raise e.
Proof.
  induction l1 as [|y l1 IH]; intros Hok Hx; simpl.
  - now rewrite Hx.
  - destruct (Hok y (or_introl eq_refl)) as (b & ->). simpl.
    rewrite IH; [reflexivity| |assumption].
    intros; apply Hok; now right.
Qed.

Lemma mapM_raises {A B} (f : A -> result B) (l : list A) (x : A) :
  In x l -> is_ok (f x) = false -> is_ok (mapM f l) = false.
Proof.
  induction l as [|y l IH]; intros Hin Hx; [contradiction|]. simpl.
  destruct (f y) as [b|e] eqn:Ey; [|reflexivity]. simpl.
  destruct Hin as [->|Hin]; [now rewrite Ey in Hx|].
  specialize (IH Hin Hx). destruct (mapM f l); [discriminate|reflexivity].
Qed.

Lemma list_item_ok {A} (l : list A) (i : nat) (a : A) :
  list_item l i = Ok a <-> nth_error l i = Some a.
Proof.
  unfold list_item. destruct (nth_error l i); split; congruence.
Qed.

Lemma list_update_length {A} (l : list A) (i : nat) (a : A) :
  List.length (list_update l i a) = List.length l.
Proof.
  revert i; induction l as [|x l IH]; intros [|i]; simpl; auto.
Qed.

Lemma nth_error_list_update {A} (l : list A) (i j : nat) (a : A) :
  nth_error (list_update l i a) j =
  if Nat.eqb j i then
    (if Nat.ltb i (List.length l) then Some a else None)
  else nth_error l j.
Proof.
  revert i j; induction l as [|x l IH]; intros [|i] [|j]; simpl; auto.
  now destruct (Nat.eqb j i).
Qed.

Lemma list_setitem_ok {A} (l l' : list A) (i : nat) (a : A) :
  list_setitem l i a = Ok l' <->
  i < List.length l /\ l' = list_update l i a.
Proof.
  unfold list_setitem. destruct (Nat.ltb_spec i (List.length l)); split.
  - intros [= <-]. auto.
  - now intros (_ & ->).
  - discriminate.
  - intros (Hlt & _). lia.
Qed.

(* ================================================================= *)
(** ** The order of binary64 values that are not NaN *)

Module Float64.

#[local] Open Scope float_scope.

Ltac cmp_cases :=
  repeat match goal with
  | |- context [Z.compare ?a ?b] => destruct (Z.compare_spec a b)
  | H : context [Z.compare ?a ?b] |- _ => destruct (Z.compare_spec a b)
  | |- context [PosDef.Pos.compare_cont Eq ?a ?b] =>
      change (PosDef.Pos.compare_cont Eq a b) with (Pos.compare a b);
      destruct (Pos.compare_spec a b)
  | H : context [PosDef.Pos.compare_cont Eq ?a ?b] |- _ =>
      change (PosDef.Pos.compare_cont Eq a b) with (Pos.compare a b) in H;
      destruct (Pos.compare_spec a b)
  end.


Ltac by_cases3 x y z :=
  unfold SFleb, SFltb, SFeqb, SFcompare;
  destruct x as [[]|[]| |[] ? ?], y as [[]|[]| |[] ? ?],
           z as [[]|[]| |[] ? ?];
  simpl; try congruence; cmp_cases; simpl; try congruence; try lia.

Lemma SFleb_trans x y z :
  SFleb x y = true -> SFleb y z = true -> SFleb x z = true.
Proof. by_cases3 x y z. Qed.







Lemma leb_trans x y z :
  (x <=? y) = true -> (y <=? z) = true -> (x <=? z) = true.
Proof. rewrite !FloatAxioms.leb_spec. apply SFleb_trans. Qed.






(** *** Finite values *)

Lemma is_finite_spec x : is_finite x = SFfinite (Prim2SF x).
Proof.
  unfold is_finite, is_nan, is_infinity.
  rewrite !FloatAxioms.eqb_spec, FloatAxioms.abs_spec.
  change (Prim2SF infinity) with (S754_infinity false).
  destruct (Prim2SF x) as [[]|[]| |[] m e]; try reflexivity.
  all: unfold SFeqb, SFcompare, SFabs; simpl.
  all: rewrite Z.compare_refl;
    change (PosDef.Pos.compare_cont Eq m m) with (Pos.compare m m);
    rewrite Pos.compare_refl; reflexivity.
Qed.

Lemma sub_diag x : is_finite x = true -> x - x = 0.
Proof.
  rewrite is_finite_spec. intros H. apply Prim2SF_inj.
  rewrite FloatAxioms.sub_spec. change (Prim2SF 0) with (S754_zero false).
  destruct (Prim2SF x) as [[]|[]| |s m e]; try discriminate; try reflexivity.
  unfold SF64sub, SFsub. rewrite Z.sub_diag. reflexivity.
Qed.

(** *** Signs and symmetry *)

Lemma binary_round_aux_opp s m e l :
  binary_round_aux prec emax (negb s) m e l =
  SFopp (binary_round_aux prec emax s m e l).
Proof.
  unfold binary_round_aux.
  destruct (shr_fexp prec emax m e l) as (mrs', e').
  destruct (shr_fexp prec emax _ e' loc_Exact) as (mrs'', e'').
  destruct (shr_m mrs''); try reflexivity.
  now destruct (e'' <=? emax - prec)%Z.
Qed.

Lemma binary_round_aux_sign s m e l :
  binary_round_aux prec emax s m e l = S754_nan \/
  SFsign (binary_round_aux prec emax s m e l) = s.
Proof.
  unfold binary_round_aux.
  destruct (shr_fexp prec emax m e l) as (mrs', e').
  destruct (shr_fexp prec emax _ e' loc_Exact) as (mrs'', e'').
  destruct (shr_m mrs''); auto.
  destruct (e'' <=? emax - prec)%Z; auto.
Qed.

Lemma binary_round_opp m e :
  binary_round prec emax true m e = SFopp (binary_round prec emax false m e).
Proof.
  unfold binary_round.
  destruct (shl_align m e _) as (mz, ez).
  apply (binary_round_aux_opp false).
Qed.

Lemma binary_normalize_opp m e :
  binary_normalize prec emax (- m) e false
  = SFopp (binary_normalize prec emax m e false) \/
  binary_normalize prec emax (- m) e false
  = binary_normalize prec emax m e false.
Proof.
  destruct m as [|p|p]; simpl.
  - now right.
  - left. apply binary_round_opp.
  - left. rewrite binary_round_opp. now destruct (binary_round prec emax false p e) as [[]|[]| |[] ? ?].
Qed.

Lemma SFsub_swap x y :
  SF64sub y x = SFopp (SF64sub x y) \/ SF64sub y x = SF64sub x y.
Proof.
  destruct x as [[]|[]| |sx mx ex], y as [[]|[]| |sy my ey]; simpl; auto;
    try (left; now rewrite Bool.negb_involutive).
  unfold SF64sub, SFsub.
  rewrite (Z.min_comm ey ex).
  set (A := cond_Zopp sx _). set (B := cond_Zopp sy _).
  replace (B - A)%Z with (- (A - B))%Z by lia.
  apply binary_normalize_opp.
Qed.

Lemma sub_swap x y : y - x = - (x - y) \/ y - x = x - y.
Proof.
  destruct (SFsub_swap (Prim2SF x) (Prim2SF y)) as [H|H]; [left|right];
    apply Prim2SF_inj; rewrite ?FloatAxioms.opp_spec, !FloatAxioms.sub_spec; exact H.
Qed.

Lemma div_opp x y : (- x) / y = - (x / y).
Proof.
  apply Prim2SF_inj. rewrite FloatAxioms.opp_spec, !FloatAxioms.div_spec, FloatAxioms.opp_spec.
  destruct (Prim2SF x) as [sx|sx| |sx mx ex], (Prim2SF y) as [sy|sy| |sy my ey]; simpl; try reflexivity;
   try (now destruct sx, sy).
  unfold SF64div, SFdiv.
  destruct (SFdiv_core_binary _ _ _ _ _ _) as ((mz, ez), lz).
  replace (xorb (negb sx) sy) with (negb (xorb sx sy)) by now destruct sx, sy.
  apply binary_round_aux_opp.
Qed.

Lemma mul_comm x y : x * y = y * x.
Proof.
  apply Prim2SF_inj. rewrite !FloatAxioms.mul_spec.
  destruct (Prim2SF x) as [sx|sx| |sx mx ex], (Prim2SF y) as [sy|sy| |sy my ey]; simpl; try reflexivity;
   try (now destruct sx, sy).
  unfold SF64mul, SFmul. now rewrite Bool.xorb_comm, Pos.mul_comm, Z.add_comm.
Qed.

Lemma get_sign_spec x : get_sign x = SFsign (Prim2SF x).
Proof.
  unfold get_sign, PrimFloat.is_zero.
  rewrite FloatAxioms.eqb_spec. change (Prim2SF zero) with (S754_zero false).
  destruct (Prim2SF x) as [s|s| |s m e] eqn:E.
  - replace (SFeqb (S754_zero s) (S754_zero false)) with true by now destruct s.
    rewrite FloatAxioms.ltb_spec, FloatAxioms.div_spec, E.
    change (Prim2SF one) with (S754_finite false 4503599627370496 (-52)).
    change (Prim2SF zero) with (S754_zero false). now destruct s.
  - replace (SFeqb (S754_infinity s) (S754_zero false)) with false by now destruct s.
    rewrite FloatAxioms.ltb_spec, E. change (Prim2SF zero) with (S754_zero false). now destruct s.
  - simpl. rewrite FloatAxioms.ltb_spec, E. reflexivity.
  - replace (SFeqb (S754_finite s m e) (S754_zero false)) with false by now destruct s.
    rewrite FloatAxioms.ltb_spec, E. change (Prim2SF zero) with (S754_zero false). now destruct s.
Qed.

Lemma sqrt_sign x :
  Prim2SF x <> S754_zero true -> get_sign (PrimFloat.sqrt x) = false.
Proof.
  intros H. rewrite get_sign_spec, FloatAxioms.sqrt_spec.
  destruct (Prim2SF x) as [[]|[]| |[] m e]; simpl; try reflexivity; try congruence.
  unfold SF64sqrt, SFsqrt.
  destruct (SFsqrt_core_binary prec emax (Z.pos m) e) as ((mz, ez), lz).
  destruct (binary_round_aux_sign false mz ez lz) as [-> | ->]; reflexivity.
Qed.

Lemma mul_positive_not_negative c x :
  (exists m e, Prim2SF c = S754_finite false m e) ->
  (x <? 0) = false -> (c * x <? 0) = false.
Proof.
  intros (m & e & Hc). rewrite !FloatAxioms.ltb_spec, FloatAxioms.mul_spec, Hc.
  change (Prim2SF 0) with (S754_zero false).
  destruct (Prim2SF x) as [[]|[]| |[] mx ex]; simpl; try reflexivity; try discriminate.
  intros _. unfold SF64mul.
  destruct (binary_round_aux_sign false (Z.pos (m * mx)) (e + ex) loc_Exact) as [-> | H]; [reflexivity|].
  revert H.
  destruct (binary_round_aux prec emax false (Z.pos (m * mx)) (e + ex) loc_Exact) as [[]|[]| |[] ? ?]; simpl; intros; try reflexivity; discriminate.
Qed.

Lemma mul_opp_opp x : (- x) * (- x) = x * x.
Proof.
  apply Prim2SF_inj. rewrite !FloatAxioms.mul_spec, FloatAxioms.opp_spec.
  destruct (Prim2SF x) as [[]|[]| |[] m e]; reflexivity.
Qed.

Lemma abs_not_negative x : (abs x <? 0) = false.
Proof.
  rewrite FloatAxioms.ltb_spec, FloatAxioms.abs_spec.
  change (Prim2SF 0) with (S754_zero false).
  now destruct (Prim2SF x) as [[]|[]| |[] m e].
Qed.

(** *** Products that do not overflow *)

Lemma digits2_pos_size p : digits2_pos p = Pos.size p.
Proof. induction p; simpl; congruence. Qed.

Lemma Zdigits2_log2 p : Zdigits2 (Zpos p) = Z.succ (Z.log2 (Zpos p)).
Proof.
  simpl. rewrite digits2_pos_size. destruct p; simpl; try reflexivity;
   now rewrite Pos.add_1_r.
Qed.

Lemma Zdigits2_bound m k :
  (0 <= m)%Z -> (0 <= k)%Z -> (m <= 2 ^ k)%Z -> (Zdigits2 m <= k + 1)%Z.
Proof.
  intros Hm Hk H. destruct m as [|p|p]; simpl; try lia.
  change (Z.pos (digits2_pos p)) with (Zdigits2 (Zpos p)).
  rewrite Zdigits2_log2.
  pose proof (Z.log2_le_mono _ _ H) as Hl. rewrite Z.log2_pow2 in Hl by lia. lia.
Qed.

Lemma shr_1_bound mrs :
  (0 <= shr_m mrs)%Z -> (0 <= shr_m (shr_1 mrs) <= shr_m mrs)%Z.
Proof.
  destruct mrs as [m r s]. simpl. destruct m as [|[p|p|]|p]; simpl; lia.
Qed.

Lemma iter_shr_1_bound n mrs :
  (0 <= shr_m mrs)%Z ->
  (0 <= shr_m (iter_pos shr_1 n mrs) <= shr_m mrs)%Z.
Proof.
  revert mrs. induction n as [n IH|n IH|]; intros mrs H; simpl.
  - pose proof (shr_1_bound mrs H) as H1.
    pose proof (IH _ (proj1 H1)) as H2.
    pose proof (IH _ (proj1 H2)) as H3. lia.
  - pose proof (IH _ H) as H2.
    pose proof (IH _ (proj1 H2)) as H3. lia.
  - now apply shr_1_bound.
Qed.

Lemma shr_fexp_bound m e l :
  (0 <= m)%Z ->
  let '(mrs, e') := shr_fexp prec emax m e l in
  (0 <= shr_m mrs <= m)%Z /\
  (e' = e \/ e' = fexp prec emax (Zdigits2 m + e))%Z.
Proof.
  intros Hm. unfold shr_fexp, shr.
  assert (Hrec : shr_m (shr_record_of_loc m l) = m)
    by (destruct l as [|[]]; reflexivity).
  destruct (fexp prec emax (Zdigits2 m + e) - e)%Z as [|n|n] eqn:E.
  - rewrite Hrec. split; [lia|now left].
  - pose proof (iter_shr_1_bound n (shr_record_of_loc m l)) as H.
    rewrite Hrec in H. split; [now apply H|right; lia].
  - rewrite Hrec. split; [lia|now left].
Qed.

Lemma round_nearest_even_bound m l :
  (0 <= m)%Z -> (m <= round_nearest_even m l <= m + 1)%Z.
Proof.
  intros H. destruct l as [|[]]; simpl; try lia. destruct (Z.even m); lia.
Qed.

(** Rounding a small enough number does not overflow. *)
Lemma binary_round_aux_finite s p e :
  (Z.log2 (Zpos p) <= 200)%Z -> (e <= 0)%Z ->
  SFfinite (binary_round_aux prec emax s (Zpos p) e loc_Exact) = true.
Proof.
  intros Hd He. unfold binary_round_aux.
  pose proof (shr_fexp_bound (Zpos p) e loc_Exact ltac:(lia)) as H1.
  destruct (shr_fexp prec emax (Zpos p) e loc_Exact) as (mrs', e').
  destruct H1 as (Hm' & He').
  set (m1 := round_nearest_even (shr_m mrs') (loc_of_shr_record mrs')).
  pose proof (round_nearest_even_bound (shr_m mrs') (loc_of_shr_record mrs')
                (proj1 Hm')) as Hm1. fold m1 in Hm1.
  pose proof (shr_fexp_bound m1 e' loc_Exact ltac:(lia)) as H2.
  destruct (shr_fexp prec emax m1 e' loc_Exact) as (mrs'', e'').
  destruct H2 as (Hm'' & He'').
  assert (Hp : (Zpos p < 2 ^ 201)%Z).
  { apply Z.log2_lt_pow2; lia. }
  assert (Hdig1 : (Zdigits2 m1 <= 202)%Z).
  { apply (Zdigits2_bound m1 201); lia. }
  assert (Hdig : (Zdigits2 (Zpos p) <= 201)%Z).
  { rewrite Zdigits2_log2. lia. }
  assert (He'b : (e' <= 148)%Z).
  { unfold fexp, emin, prec, emax in He'. lia. }
  assert (He''b : (e'' <= emax - prec)%Z).
  { unfold fexp, emin, prec, emax in *. lia. }
  destruct (shr_m mrs'') as [|q|q]; [reflexivity| |lia].
  apply Z.leb_le in He''b. rewrite He''b. reflexivity.
Qed.

Lemma valid_digits s m e :
  valid_binary (S754_finite s m e) = true -> (Z.log2 (Zpos m) <= 52)%Z.
Proof.
  intros H. cbn [SpecFloat.valid_binary] in H.
  unfold bounded, canonical_mantissa in H.
  apply andb_prop in H. destruct H as (H & _). apply Z.eqb_eq in H.
  change (Z.pos (digits2_pos m)) with (Zdigits2 (Zpos m)) in H.
  rewrite Zdigits2_log2 in H. unfold fexp, emin, prec, emax in H. lia.
Qed.

Lemma SFabs_le_one s m e :
  SFleb (SFabs (S754_finite s m e)) (S754_finite false 4503599627370496 (-52)) = true ->
  (e <= -52)%Z.
Proof.
  unfold SFleb, SFcompare. cbn [SFabs].
  destruct (Z.compare_spec e (-52)); first [lia | discriminate].
Qed.

Lemma mul_unit_finite a b :
  (abs a <=? 1) = true -> (abs b <=? 1) = true -> is_finite (a * b) = true.
Proof.
  rewrite is_finite_spec, !FloatAxioms.leb_spec, !FloatAxioms.abs_spec.
  change (Prim2SF 1) with (S754_finite false 4503599627370496 (-52)).
  pose proof (Prim2SF_valid a) as Va. pose proof (Prim2SF_valid b) as Vb.
  intros Ha Hb. rewrite FloatAxioms.mul_spec.
  destruct (Prim2SF a) as [sa|sa| |sa ma ea],
           (Prim2SF b) as [sb|sb| |sb mb eb];
    try reflexivity; try discriminate;
    try (now destruct sa); try (now destruct sb).
  apply SFabs_le_one in Ha, Hb. apply valid_digits in Va, Vb.
  unfold SF64mul, SFmul. apply binary_round_aux_finite; [|lia].
  rewrite Pos2Z.inj_mul.
  pose proof (Z.log2_mul_above (Zpos ma) (Zpos mb) ltac:(lia) ltac:(lia)).
  lia.
Qed.

Lemma mul_zero_r x : is_finite x = true -> x * 0 = 0 \/ x * 0 = -0.
Proof.
  rewrite is_finite_spec. intros H.
  assert (Prim2SF (x * 0) = S754_zero false \/
          Prim2SF (x * 0) = S754_zero true) as [E|E].
  { rewrite FloatAxioms.mul_spec. change (Prim2SF 0) with (S754_zero false).
    destruct (Prim2SF x) as [[]|[]| |[] m e]; try discriminate; simpl; auto. }
  - left. now apply Prim2SF_inj.
  - right. now apply Prim2SF_inj.
Qed.

End Float64.

(* ================================================================= *)
(** ** [min] and [index] on the distances *)

Section MinIndex.

Import GeoBoundary.









End MinIndex.

(* ================================================================= *)
(** ** Loading a boundary file and querying it *)

Section GeoBoundaryFacts.
Context {shapely : Shapely} {numpy : Numpy}.

Import GeoBoundary.

(** What [__init__] does, read off its three steps. *)
Lemma init_ok (file : json) (self : t) :
  init file = Ok self <->
  exists places features shapes,
    getitem file "features" = Ok places /\
    iter places = Ok features /\
    Forall2 (fun f s => to_shape f = Ok s) features shapes /\
    self = {| data := file; places := places; shapes := shapes |}.
Proof.
  unfold init. split.
  - intros H. bind_inv H. bind_inv H. bind_inv H. injection H as <-.
    apply mapM_Forall2 in E1. eauto 8.
  - intros (places & features & shapes & -> & Hi & Hs & ->). simpl.
    rewrite Hi. simpl. apply mapM_Forall2 in Hs. now rewrite Hs.
Qed.

Lemma to_shape_object (f : json) (s : Shape) :
  to_shape f = Ok s -> exists items, f = JObject items.
Proof. destruct f; simpl; try discriminate. eauto. Qed.

(** A loaded boundary with a shape holds its features in an array. *)
Lemma places_array (places : json) (features : list json)
    (shapes : list Shape) :
  iter places = Ok features ->
  Forall2 (fun f s => to_shape f = Ok s) features shapes ->
  shapes <> [] ->
  places = JArray features.
Proof.
  intros Hi Hs Hne.
  destruct Hs as [|f s features shapes Hf Hs]; [congruence|].
  apply to_shape_object in Hf. destruct Hf as (items & ->).
  destruct places; simpl in Hi; try discriminate.
  - unfold chars in Hi. destruct (list_ascii_of_string s0); discriminate.
  - now injection Hi as ->.
  - destruct items0; discriminate.
Qed.

Lemma search_from_spec (pre features : list json) (shapes : list Shape)
    (p : Point) :
  List.length features = List.length shapes ->
  search_from (JArray (pre ++ features)) p (List.length pre) shapes =
  Ok (containing features shapes p).
Proof.
  revert pre features. induction shapes as [|i rest IH];
    intros pre [|f features] Hlen; simpl in Hlen; try discriminate.
  - reflexivity.
  - injection Hlen as Hlen. unfold containing. simpl.
    replace (pre ++ f :: features) with ((pre ++ [f]) ++ features)
      by now rewrite <- app_assoc.
    replace (S (List.length pre)) with (List.length (pre ++ [f]))
      by (rewrite length_app; simpl; lia).
    rewrite (IH (pre ++ [f]) features Hlen).
    destruct (contains i p); simpl; [|reflexivity].
    unfold list_item.
    rewrite <- app_assoc, nth_error_app2, Nat.sub_diag by lia.
    reflexivity.
Qed.

Lemma containing_nil (features : list json) (shapes : list Shape)
    (p : Point) :
  (forall s, In s shapes -> contains s p = false) ->
  containing features shapes p = [].
Proof.
  unfold containing. revert features.
  induction shapes as [|s shapes IH]; intros [|f features] H;
    simpl; try reflexivity.
  rewrite (H s) by now left. apply IH. intros; apply H; now right.
Qed.

(** The first region of [containing] is the one of the first containing
    shape. *)
Lemma containing_first (features : list json) (shapes : list Shape)
    (p : Point) (k : nat) (s : Shape) :
  List.length features = List.length shapes ->
  nth_error shapes k = Some s ->
  contains s p = true ->
  (forall j s', j < k -> nth_error shapes j = Some s' ->
                contains s' p = false) ->
  exists region rest,
    nth_error features k = Some region /\
    containing features shapes p = region :: rest /\
    ((forall j s', k < j -> nth_error shapes j = Some s' ->
                   contains s' p = false) -> rest = []).
Proof.
  unfold containing. revert features shapes.
  induction k as [|k IH]; intros [|f features] [|i shapes] Hlen Hk Hc Hbefore;
    simpl in *; try discriminate.
  - injection Hk as ->. rewrite Hc. simpl.
    exists f. eexists. repeat split.
    intros Hafter. apply (containing_nil features shapes).
    intros s' Hin. apply In_nth_error in Hin. destruct Hin as (j & Hj).
    apply (Hafter (S j)); [lia|exact Hj].
  - injection Hlen as Hlen.
    rewrite (Hbefore 0 i) by (auto; lia). 
    destruct (IH features shapes Hlen Hk Hc) as (region & rest & H1 & H2 & H3).
    { intros j s' Hj. apply (Hbefore (S j)). lia. }
    exists region, rest. repeat split; [assumption..|].
    intros Hafter. apply H3. intros j s' Hj. apply (Hafter (S j)). lia.
Qed.

(** [find] when some shape contains the point: the containing regions. *)
Lemma find_containing (features : list json) (shapes : list Shape)
    (file : json) (p : Point) :
  List.length features = List.length shapes ->
  containing features shapes p <> [] ->
  find {| data := file; places := JArray features; shapes := shapes |} p =
  Ok (containing features shapes p).
Proof.
  intros Hlen Hne. unfold find. simpl.
  pose proof (search_from_spec [] features shapes p Hlen) as Hs.
  simpl in Hs. rewrite Hs. simpl.
  destruct (containing features shapes p); [congruence|reflexivity].
Qed.



End GeoBoundaryFacts.

(* ================================================================= *)
(** ** The distance of a point to itself *)

Section Haversine.
Context {numpy : Numpy}.

Import GeoBoundary.

#[local] Open Scope float_scope.

Lemma haversine_same_point (p : Point) :
  NumpyLaws numpy -> finite_point p -> haversine p p = 0.
Proof.
  intros L (Hx & Hy). unfold haversine.
  rewrite !Float64.sub_diag by now apply (deg2rad_finite _ L).
  change (0 / 2) with 0.
  rewrite (sin_0 _ L), (power_0 _ L).
  assert (Hc : is_finite (np_cos (np_deg2rad (py p)) *
                          np_cos (np_deg2rad (py p))) = true)
    by (apply Float64.mul_unit_finite; apply (cos_range _ L);
        now apply (deg2rad_finite _ L)).
  destruct (Float64.mul_zero_r _ Hc) as [-> | ->].
  - change (0 + 0) with 0. change (np_sqrt 0) with 0.
    change (np_sqrt (1 - 0)) with 1. rewrite (arctan2_0_1 _ L). reflexivity.
  - change (0 + -0) with 0. change (np_sqrt 0) with 0.
    change (np_sqrt (1 - 0)) with 1. rewrite (arctan2_0_1 _ L). reflexivity.
Qed.

(** The squared sine of half a difference does not depend on the order of
    the subtraction. *)
Lemma half_angle_swap (x y : float) :
  NumpyLaws numpy ->
  np_power (np_sin ((y - x) / 2)) 2 = np_power (np_sin ((x - y) / 2)) 2.
Proof.
  intros L. destruct (Float64.sub_swap x y) as [-> | ->]; [|reflexivity].
  now rewrite Float64.div_opp, (sin_odd _ L), (power_even _ L).
Qed.

Lemma haversine_symmetric (a b : Point) :
  NumpyLaws numpy -> haversine a b = haversine b a.
Proof.
  intros L. unfold haversine.
  rewrite (half_angle_swap (np_deg2rad (py a)) (np_deg2rad (py b)) L).
  rewrite (half_angle_swap (np_deg2rad (px a)) (np_deg2rad (px b)) L).
  rewrite (Float64.mul_comm (np_cos (np_deg2rad (py a)))
                            (np_cos (np_deg2rad (py b)))).
  reflexivity.
Qed.

Lemma haversine_not_negative (a b : Point) :
  NumpyLaws numpy -> (haversine a b <? 0) = false.
Proof.
  intros L. unfold haversine.
  set (alpha := _ + _).
  apply Float64.mul_positive_not_negative.
  { vm_compute. eauto. }
  destruct (Prim2SF alpha) as [[]|[]| |[] m e] eqn:E;
    try (apply (arctan2_sign _ L), Float64.sqrt_sign; rewrite E; discriminate).
  assert (Ha : alpha = -0) by (apply Prim2SF_inj; rewrite E; reflexivity).
  rewrite Ha. change (np_sqrt (-0)) with (-0).
  change (np_sqrt (1 - -0)) with 1. apply (arctan2_m0_1 _ L).
Qed.

End Haversine.

(* ================================================================= *)
(** ** The containment query and the nearest fallback *)

Section Find.
Context {shapely : Shapely} {numpy : Numpy}.

Import GeoBoundary.

(** A loaded boundary with a shape: its regions are an array as long as
    its shapes. *)
Lemma loaded_regions (file : json) (self : t) :
  init file = Ok self -> shapes self <> [] ->
  exists features,
    self = {| data := file; places := JArray features;
              shapes := shapes self |} /\
    Forall2 (fun f s => to_shape f = Ok s) features (shapes self).
Proof.
  intros Hinit Hne. apply init_ok in Hinit.
  destruct Hinit as (places & features & shapes & _ & Hi & Hs & ->).
  simpl in *. exists features.
  now rewrite (places_array places _ _ Hi Hs Hne).
Qed.

(** C2.  A point that the shapes of exactly one region contain resolves to
    that region; in general [find] returns the containing regions in load
    order and its first element is the region of the first containing
    shape. *)
Theorem first_containing_region_wins (file : json) (self : t) (p : Point)
    (k : nat) (s : Shape) :
  init file = Ok self ->
  nth_error (shapes self) k = Some s ->
  contains s p = true ->
  (forall j s', j < k -> nth_error (shapes self) j = Some s' ->
                contains s' p = false) ->
  exists features region rest,
    places self = JArray features /\
    Forall2 (fun f s => to_shape f = Ok s) features (shapes self) /\
    nth_error features k = Some region /\
    find self p = Ok (containing features (shapes self) p) /\
    containing features (shapes self) p = region :: rest /\
    (found <- find self p ;; list_item found 0) = Ok region /\
    ((forall j s', k < j -> nth_error (shapes self) j = Some s' ->
                   contains s' p = false) ->
     find self p = Ok [region]).
Proof.
  intros Hinit Hk Hc Hbefore.
  assert (Hne : shapes self <> []) by (destruct (shapes self), k; discriminate).
  destruct (loaded_regions _ _ Hinit Hne) as (features & Hself & Hs).
  pose proof (Forall2_length Hs) as Hlen.
  destruct (containing_first features _ p k s Hlen Hk Hc Hbefore)
    as (region & rest & Hr & Hcont & Hone).
  assert (Hfind : find self p = Ok (containing features (shapes self) p)).
  { rewrite Hself at 1. apply find_containing; [assumption|].
    rewrite Hcont. discriminate. }
  exists features, region, rest. repeat split; try assumption.
  - now rewrite Hself.
  - rewrite Hfind, Hcont. reflexivity.
  - intros Hafter. rewrite Hfind, Hcont, (Hone Hafter). reflexivity.
Qed.



End Find.

(* ================================================================= *)
(** ** The example instances satisfy what the theorems assume *)

Section ExampleFacts.

Import Examples.

#[local] Open Scope float_scope.

Lemma flat_laws : NumpyLaws flat.
Proof.
  constructor; simpl; intros; try reflexivity; try assumption.
  - apply Float64.mul_opp_opp.
  - apply Float64.abs_not_negative.
Defined.

(** The point (2, 1) lies in the eastern rectangle only. *)
Lemma first_containing_region_wins_witness :
  exists self,
    @GeoBoundary.init boxes boundary_WE = Ok self /\
    (found <- @GeoBoundary.find boxes flat self (mkPoint 2 1) ;;
     list_item found 0) = Ok (region "E" (rectangle 1 0 4 2)).
Proof.
  eexists. split; [reflexivity|].
  destruct (@first_containing_region_wins boxes flat boundary_WE _
              (mkPoint 2 1) 1 _ eq_refl eq_refl eq_refl)
    as (features & r & rest & Hp & _ & Hr & _ & _ & Hres & _).
  - intros [|j] s' Hj Hs; [injection Hs as <-; reflexivity|lia].
  - injection Hp as <-. simpl in Hr. injection Hr as <-. exact Hres.
Defined.




End ExampleFacts.

(* ================================================================= *)
(** ** Dictionaries *)

Section Dict.
Context {V : Type}.

Lemma dict_get_set (d : dict V) (k k' : string) (v : V) :
  dict_get (dict_set d k v) k' =
  if String.eqb k k' then Some v else dict_get d k'.
Proof.
  induction d as [|(k0, v0) d IH]; simpl.
  - reflexivity.
  - destruct (String.eqb_spec k0 k) as [->|Hne]; simpl.
    + now destruct (String.eqb k k').
    + destruct (String.eqb_spec k0 k') as [->|Hne'].
      * destruct (String.eqb_spec k k'); [congruence|reflexivity].
      * exact IH.
Qed.

Lemma dict_get_set_same (d : dict V) (k : string) (v : V) :
  dict_get (dict_set d k v) k = Some v.
Proof. now rewrite dict_get_set, String.eqb_refl. Qed.

Lemma dict_get_set_other (d : dict V) (k k' : string) (v : V) :
  k <> k' -> dict_get (dict_set d k v) k' = dict_get d k'.
Proof.
  intros H. rewrite dict_get_set. now destruct (String.eqb_spec k k').
Qed.

Lemma dict_get_keys (d : dict V) (k : string) :
  dict_get d k <> None <-> In k (keys d).
Proof.
  induction d as [|(k0, v0) d IH]; simpl.
  - split; [congruence|contradiction].
  - destruct (String.eqb_spec k0 k) as [->|Hne].
    + split; [now left|discriminate].
    + rewrite IH. split; [now right|]. now intros [E|H].
Qed.

Lemma dict_set_keys (d : dict V) (k k' : string) (v : V) :
  In k' (keys (dict_set d k v)) <-> In k' (keys d) \/ k' = k.
Proof.
  rewrite <- !dict_get_keys, dict_get_set.
  destruct (String.eqb_spec k k') as [->|Hne].
  - split; [now right|discriminate].
  - split; [now left|]. intros [H|E]; [assumption|congruence].
Qed.

(** Setting a key twice keeps the last value. *)
Lemma dict_set_set (d : dict V) (k : string) (v v' : V) :
  dict_set (dict_set d k v) k v' = dict_set d k v'.
Proof.
  induction d as [|(k0, v0) d IH]; simpl.
  - now rewrite String.eqb_refl.
  - destruct (String.eqb_spec k0 k) as [->|Hne]; simpl.
    + now rewrite String.eqb_refl.
    + destruct (String.eqb_spec k0 k); [congruence|]. now rewrite IH.
Qed.

(** A new key goes last. *)
Lemma dict_set_fresh (d : dict V) (k : string) (v : V) :
  ~ In k (keys d) -> dict_set d k v = d ++ [(k, v)].
Proof.
  induction d as [|(k0, v0) d IH]; simpl; intros H.
  - reflexivity.
  - destruct (String.eqb_spec k0 k) as [->|Hne].
    + exfalso. apply H. now left.
    + rewrite IH; [reflexivity|]. intros Hin. apply H. now right.
Qed.

Lemma fold_dict_set_keys (kvs : list (string * V)) (d : dict V) (k : string) :
  In k (keys (fold_left (fun d kv => dict_set d (fst kv) (snd kv)) kvs d)) <->
  In k (keys d) \/ In k (map fst kvs).
Proof.
  revert d. induction kvs as [|(k0, v0) kvs IH]; intros d; simpl.
  - tauto.
  - rewrite IH, dict_set_keys. intuition congruence.
Qed.

(** The keys of [dict(zip(ks, vs))] when [vs] is as long as [ks]. *)
Lemma dict_zip_keys (ks : list string) (vs : list V) (k : string) :
  List.length ks = List.length vs ->
  In k (keys (dict_zip ks vs)) <-> In k ks.
Proof.
  intros Hlen. unfold dict_zip. rewrite fold_dict_set_keys. simpl.
  assert (E : map fst (combine ks vs) = ks).
  { revert vs Hlen. induction ks as [|k0 ks IH]; intros [|v vs] Hlen;
      simpl in *; try discriminate; [reflexivity|].
    f_equal. apply IH. now injection Hlen. }
  rewrite E. tauto.
Qed.

End Dict.

(* ================================================================= *)
(** ** The table: fields of the rows and columns *)

Section DictCSVFacts.
Context {builtins : Builtins}.

Import DictCSV.

Lemma np_array_ok (body table : list (list string)) :
  np_array body = Ok table -> table = body.
Proof.
  unfold np_array. destruct body as [|first rest]; [now intros [= <-]|].
  destruct (forallb _ _); [now intros [= <-]|discriminate].
Qed.

Lemma np_array_rectangular (body : list (list string)) (n : nat) :
  Forall (fun r => List.length r = n) body -> np_array body = Ok body.
Proof.
  intros H. unfold np_array. destruct body as [|first rest]; [reflexivity|].
  assert (E : forallb (fun r => Nat.eqb (List.length r) (List.length first))
                      (first :: rest) = true).
  { apply forallb_forall. intros r Hr. apply Nat.eqb_eq.
    rewrite Forall_forall in H. rewrite (H r Hr). symmetry. apply H. now left. }
  now rewrite E.
Qed.

Lemma init_uniform (header : list string) (body : list (list string))
    (csv : t) :
  Forall (fun r => List.length r = List.length header) body ->
  init (header :: body) = Ok csv ->
  uniform csv.
Proof.
  intros Hlen H. simpl in H. bind_inv H. injection H as <-.
  apply np_array_ok in E. subst a. unfold uniform. simpl.
  apply Forall_map. eapply Forall_impl; [|exact Hlen]. simpl.
  intros r Hr k. apply dict_zip_keys. now rewrite length_map.
Qed.

Lemma add_col_uniform (csv : t) (name : string) :
  uniform csv -> uniform (add_col csv name).
Proof.
  unfold uniform. simpl. intros H. apply Forall_map.
  eapply Forall_impl; [|exact H]. simpl. intros row Hrow k.
  rewrite dict_set_keys, in_app_iff, (Hrow k). simpl. intuition congruence.
Qed.

Lemma set_row_rows (csv csv' : t) (row_id : nat) (row : dict json) :
  set_row csv row_id row = Ok csv' ->
  row_id < List.length (rows csv) /\
  rows csv' = list_update (rows csv) row_id row /\
  header csv' = header csv.
Proof.
  unfold set_row. intros H. bind_inv H. bind_inv H. injection H as <-.
  apply list_setitem_ok in E. destruct E as (Hlt & ->). auto.
Qed.

Lemma Forall_list_update {A} (P : A -> Prop) (l : list A) (i : nat) (a : A) :
  Forall P l -> P a -> Forall P (list_update l i a).
Proof.
  intros Hl Ha. revert i. induction Hl as [|x l Hx Hl IH]; intros [|i]; simpl;
    constructor; auto.
Qed.

Lemma set_row_uniform (csv csv' : t) (row_id : nat) (row : dict json) :
  uniform csv -> same_keys row (header csv) ->
  set_row csv row_id row = Ok csv' ->
  uniform csv'.
Proof.
  intros Hu Hrow H. apply set_row_rows in H. destruct H as (_ & Hr & Hh).
  unfold uniform. rewrite Hr, Hh. now apply Forall_list_update.
Qed.

(** *** When [set_row] returns *)

Lemma column_setitem_ok (c : column) (row_id : nat) (v : json) :
  row_id < column_length c ->
  exists c', column_setitem c row_id v = Ok c' /\
             column_length c' = column_length c.
Proof.
  intros Hlt. destruct c as [w cells|cells]; simpl in *; unfold list_setitem;
    (destruct (Nat.ltb_spec row_id (List.length cells)); [|lia]); simpl;
    eexists; (split; [reflexivity|]); simpl; apply list_update_length.
Qed.

Lemma set_cols_ok (ks : list string) (cols : dict column) (row_id : nat)
    (row : dict json) (n : nat) :
  row_id < n ->
  (forall k, In k ks -> In k (keys row)) ->
  (forall k, In k ks ->
     exists c, dict_get cols k = Some c /\ column_length c = n) ->
  exists cols',
    set_cols cols ks row_id row = Ok cols' /\
    forall k c, dict_get cols k = Some c ->
      exists c', dict_get cols' k = Some c' /\
                 column_length c' = column_length c.
Proof.
  intros Hlt. revert cols. induction ks as [|k ks IH]; intros cols Hrow Hcols;
    simpl.
  - exists cols. split; [reflexivity|]. eauto.
  - assert (Hk : In k (keys row)) by (apply Hrow; now left).
    apply dict_get_keys in Hk. unfold dict_item at 1.
    destruct (dict_get row k) as [v|]; [|congruence]. simpl.
    destruct (Hcols k (or_introl eq_refl)) as (c & Hc & Hn).
    unfold dict_item. rewrite Hc. simpl.
    destruct (column_setitem_ok c row_id v) as (c' & Hc' & Hn'); [lia|].
    rewrite Hc'. simpl.
    destruct (IH (dict_set cols k c')) as (cols' & Hcols' & Hpres).
    + intros k0 Hk0. apply Hrow. now right.
    + intros k0 Hk0. rewrite dict_get_set.
      destruct (String.eqb_spec k k0) as [<-|Hne].
      * exists c'. split; [reflexivity|lia].
      * apply Hcols. now right.
    + exists cols'. split; [assumption|].
      intros k0 c0 Hc0.
      destruct (String.eqb_spec k k0) as [<-|Hne].
      * destruct (Hpres k c') as (c'' & H1 & H2);
          [apply dict_get_set_same|].
        exists c''. split; [assumption|]. congruence.
      * apply Hpres. now rewrite dict_get_set_other.
Qed.

Lemma set_row_ok (csv : t) (row_id : nat) (row : dict json) :
  columns_ready csv ->
  row_id < List.length (rows csv) ->
  (forall k, In k (header csv) -> In k (keys row)) ->
  exists csv',
    set_row csv row_id row = Ok csv' /\
    rows csv' = list_update (rows csv) row_id row /\
    header csv' = header csv /\
    columns_ready csv'.
Proof.
  intros [Hempty|Hready] Hlt Hrow; [rewrite Hempty in Hlt; simpl in Hlt; lia|].
  unfold set_row, list_setitem.
  destruct (Nat.ltb_spec row_id (List.length (rows csv))); [|lia]. simpl.
  destruct (set_cols_ok (header csv) (cols csv) row_id row
              (List.length (rows csv)) Hlt Hrow Hready)
    as (cols' & Hcols' & Hpres).
  rewrite Hcols'. simpl. eexists. split; [reflexivity|]. simpl.
  repeat split. right. intros k Hk. simpl.
  destruct (Hready k Hk) as (c & Hc & Hn).
  destruct (Hpres k c Hc) as (c' & Hc' & Hn').
  exists c'. split; [assumption|]. rewrite list_update_length. lia.
Qed.

Lemma add_col_ready (csv : t) (name : string) :
  columns_ready csv -> columns_ready (add_col csv name).
Proof.
  intros [Hempty|Hready]; [left; simpl; now rewrite Hempty|].
  right. intros k Hk. simpl in *. rewrite length_map.
  rewrite dict_get_set. destruct (String.eqb_spec name k) as [<-|Hne].
  - eexists. split; [reflexivity|]. simpl. now rewrite !length_map.
  - apply in_app_iff in Hk. destruct Hk as [Hk|[E|[]]]; [|congruence].
    apply Hready, Hk.
Qed.

Lemma fold_dict_set_get {V} (kvs : list (string * V)) (d : dict V)
    (k : string) (v : V) :
  dict_get (fold_left (fun d kv => dict_set d (fst kv) (snd kv)) kvs d) k
  = Some v ->
  In v (map snd kvs) \/ dict_get d k = Some v.
Proof.
  revert d. induction kvs as [|(k0, v0) kvs IH]; intros d H; simpl in *.
  - now right.
  - destruct (IH _ H) as [Hin|Hd]; [left; now right|].
    rewrite dict_get_set in Hd. destruct (String.eqb k0 k).
    + injection Hd as ->. left. now left.
    + now right.
Qed.

Lemma dict_zip_get {V} (ks : list string) (vs : list V) (k : string) :
  List.length ks = List.length vs -> In k ks ->
  exists v, dict_get (dict_zip ks vs) k = Some v /\ In v vs.
Proof.
  intros Hlen Hk. apply (dict_zip_keys ks vs k Hlen) in Hk.
  apply dict_get_keys in Hk.
  destruct (dict_get (dict_zip ks vs) k) as [v|] eqn:E; [|congruence].
  exists v. split; [reflexivity|].
  destruct (fold_dict_set_get _ _ _ _ E) as [Hin|Hd]; [|discriminate].
  apply in_map_iff in Hin. destruct Hin as ((k', v') & <- & Hin).
  eapply in_combine_r, Hin.
Qed.

Lemma init_ready (header : list string) (body : list (list string))
    (csv : t) :
  Forall (fun r => List.length r = List.length header) body ->
  init (header :: body) = Ok csv ->
  columns_ready csv.
Proof.
  intros Hlen H. simpl in H. bind_inv H. injection H as <-.
  apply np_array_ok in E. subst a.
  destruct body as [|first rest]; [now left|]. right. simpl.
  intros k Hk.
  assert (Hfirst : List.length first = List.length header)
    by now inversion Hlen.
  destruct (dict_zip_get header
              (map (NpColumn (itemsize (first :: rest)))
                   (map (fun j => map (fun r => nth j r "") (first :: rest))
                        (seq 0 (List.length first)))) k)
    as (c & Hc & Hin).
  - now rewrite !length_map, length_seq.
  - assumption.
  - exists c. split; [exact Hc|].
    apply in_map_iff in Hin. destruct Hin as (cells & <- & Hin).
    apply in_map_iff in Hin. destruct Hin as (j & <- & _).
    simpl. now rewrite !length_map.
Qed.

Lemma init_rows (header : list string) (body : list (list string)) :
  Forall (fun r => List.length r = List.length header) body ->
  exists csv,
    init (header :: body) = Ok csv /\
    DictCSV.header csv = header /\
    rows csv = map (fun i => dict_zip header (map JString i)) body.
Proof.
  intros Hlen. simpl. rewrite (np_array_rectangular body _ Hlen). simpl.
  eexists. repeat split.
Qed.

End DictCSVFacts.

(* ================================================================= *)
(** ** The join *)

Lemma col_name_inj (l l' : nat) :
  CSV2GeoJSON.col_name l = CSV2GeoJSON.col_name l' -> l = l'.
Proof.
  unfold CSV2GeoJSON.col_name, str_of_nat. simpl. intros [= H].
  apply (f_equal NilEmpty.uint_of_string) in H.
  rewrite !NilEmpty.usu in H. injection H as H.
  now apply DecimalNat.Unsigned.to_uint_inj.
Qed.

Lemma list_update_app {A} (done pending : list A) (x a : A) :
  list_update (done ++ x :: pending) (List.length done) a
  = done ++ a :: pending.
Proof. induction done as [|y done IH]; simpl; [reflexivity|now rewrite IH]. Qed.


Lemma augment_get_other (names : list json) (row : dict json) (level : nat)
    (k : string) :
  (forall l, level <= l < level + List.length names ->
             CSV2GeoJSON.col_name l <> k) ->
  dict_get (augment row level names) k = dict_get row k.
Proof.
  revert row level. induction names as [|name names IH]; intros row level H;
    simpl; [reflexivity|].
  rewrite IH by (intros l Hl; apply H; simpl; lia).
  apply dict_get_set_other. apply H. simpl. lia.
Qed.


Section JoinFacts.
Context {shapely : Shapely} {numpy : Numpy} {builtins : Builtins}.

Import CSV2GeoJSON.

Lemma point_of_set_other (long_col lat_col col : string) (row : dict json)
    (v : json) :
  col <> long_col -> col <> lat_col ->
  point_of long_col lat_col (dict_set row col v) = point_of long_col lat_col row.
Proof.
  intros H1 H2. unfold point_of, dict_item.
  now rewrite !dict_get_set_other.
Qed.

Lemma join_row_ok (boundary : GeoBoundary.t) (long_col lat_col col : string)
    (csv : DictCSV.t) (row_id : nat) (row : dict json) (p : Point)
    (name : json) :
  columns_ready csv -> uniform csv ->
  nth_error (DictCSV.rows csv) row_id = Some row ->
  In col (DictCSV.header csv) ->
  point_of long_col lat_col row = Ok p ->
  region_of boundary p = Ok name ->
  exists csv',
    join_row boundary long_col lat_col col csv row_id row = Ok csv' /\
    DictCSV.rows csv'
    = list_update (DictCSV.rows csv) row_id (dict_set row col name) /\
    DictCSV.header csv' = DictCSV.header csv /\
    columns_ready csv' /\ uniform csv'.
Proof.
  intros Hready Hu Hrow Hcol Hp Hname. unfold join_row.
  rewrite Hp. simpl. rewrite Hname. simpl.
  assert (Hkeys : same_keys row (DictCSV.header csv)).
  { unfold uniform in Hu. rewrite Forall_forall in Hu.
    apply Hu. eapply nth_error_In, Hrow. }
  assert (Hkeys' : same_keys (dict_set row col name) (DictCSV.header csv)).
  { intros k. rewrite dict_set_keys, (Hkeys k). intuition congruence. }
  destruct (set_row_ok csv row_id (dict_set row col name) Hready)
    as (csv' & Hset & Hrows & Hheader & Hready').
  - apply nth_error_Some. congruence.
  - intros k Hk. now apply Hkeys'.
  - exists csv'. repeat split; try assumption.
    eapply set_row_uniform; eassumption.
Qed.

Lemma join_rows_ok (boundary : GeoBoundary.t) (long_col lat_col col : string)
    (pending : list (dict json)) :
  forall (done : list (dict json)) (csv : DictCSV.t),
    columns_ready csv -> uniform csv ->
    In col (DictCSV.header csv) ->
    DictCSV.rows csv = done ++ pending ->
    Forall (fun row => exists p name,
              point_of long_col lat_col row = Ok p /\
              region_of boundary p = Ok name) pending ->
    exists csv' pending',
      join_rows boundary long_col lat_col col csv (List.length done)
                (List.length pending) = Ok csv' /\
      DictCSV.rows csv' = done ++ pending' /\
      Forall2 (joined boundary long_col lat_col col) pending pending' /\
      DictCSV.header csv' = DictCSV.header csv /\
      columns_ready csv' /\ uniform csv'.
Proof.
  induction pending as [|row pending IH];
    intros done csv Hready Hu Hcol Hrows Hall; simpl.
  - exists csv, []. repeat split; try assumption. constructor.
  - assert (Hnth : nth_error (DictCSV.rows csv) (List.length done) = Some row).
    { rewrite Hrows, nth_error_app2, Nat.sub_diag by lia. reflexivity. }
    rewrite Hnth.
    inversion Hall as [|? ? (p & name & Hp & Hname) Hall']; subst.
    destruct (join_row_ok boundary long_col lat_col col csv (List.length done)
                row p name Hready Hu Hnth Hcol Hp Hname)
      as (csv1 & Hjoin & Hrows1 & Hheader1 & Hready1 & Hu1).
    rewrite Hjoin. simpl.
    rewrite Hrows, list_update_app in Hrows1.
    destruct (IH (done ++ [dict_set row col name]) csv1 Hready1 Hu1)
      as (csv' & pending' & Hjoin' & Hrows' & Hrel & Hheader' & Hready' & Hu').
    + now rewrite Hheader1.
    + now rewrite Hrows1, <- app_assoc.
    + assumption.
    + rewrite length_app in Hjoin'. simpl in Hjoin'.
      replace (List.length done + 1) with (S (List.length done)) in Hjoin'
        by lia.
      exists csv', (dict_set row col name :: pending').
      repeat split; try assumption.
      * now rewrite Hrows', <- app_assoc.
      * constructor; [|assumption]. now exists p, name.
      * congruence.
Qed.

(** All the levels, from [level] on. *)
Lemma join_levels_ok (long_col lat_col : string)
    (boundaries : list GeoBoundary.t) :
  forall (csv : DictCSV.t) (level : nat),
    columns_ready csv -> uniform csv ->
    (forall l, level <= l < level + List.length boundaries ->
               col_name l <> long_col /\ col_name l <> lat_col) ->
    Forall (fun row => exists p,
              point_of long_col lat_col row = Ok p /\
              Forall (fun b => exists name, region_of b p = Ok name)
                     boundaries) (DictCSV.rows csv) ->
    exists csv',
      join_levels long_col lat_col csv level boundaries = Ok csv' /\
      DictCSV.header csv'
      = DictCSV.header csv
        ++ map col_name (seq level (List.length boundaries)) /\
      Forall2 (fun row out => exists p names,
                 point_of long_col lat_col row = Ok p /\
                 Forall2 (fun b name => region_of b p = Ok name)
                         boundaries names /\
                 out = augment row level names)
              (DictCSV.rows csv) (DictCSV.rows csv') /\
      columns_ready csv' /\ uniform csv'.
Proof.
  induction boundaries as [|b rest IH]; intros csv level Hready Hu Hclash Hall;
    simpl.
  - exists csv. rewrite app_nil_r. repeat split; try assumption.
    clear - Hall. induction Hall as [|row rows (p & Hp & _) _ IH];
      constructor; [|assumption].
    exists p, []. repeat split; [assumption|constructor].
  - set (col := col_name level).
    destruct (Hclash level) as (Hlong & Hlat); [simpl; lia|].
    destruct (join_rows_ok b long_col lat_col col
                (DictCSV.rows (DictCSV.add_col csv col)) []
                (DictCSV.add_col csv col))
      as (csv2 & rows2 & Hjoin & Hrows2 & Hrel & Hheader2 & Hready2 & Hu2).
    + now apply add_col_ready.
    + now apply add_col_uniform.
    + simpl. apply in_app_iff. right. now left.
    + reflexivity.
    + simpl. apply Forall_map. eapply Forall_impl; [|exact Hall]. simpl.
      intros row (p & Hp & Hb). inversion Hb as [|? ? (name & Hname) _]; subst.
      exists p, name. split; [|assumption].
      now rewrite point_of_set_other.
    + simpl in Hjoin. rewrite length_map in Hjoin |- *.
      simpl. rewrite Hjoin. simpl.
      simpl in Hrows2. subst rows2.
      assert (Hrel' :
        Forall2 (fun row row2 => exists p name,
                   point_of long_col lat_col row = Ok p /\
                   region_of b p = Ok name /\
                   row2 = dict_set row col name /\
                   Forall (fun b => exists name, region_of b p = Ok name) rest)
                (DictCSV.rows csv) (DictCSV.rows csv2)).
      { clear - Hrel Hall Hlong Hlat. simpl in Hrel.
        revert Hrel. generalize (DictCSV.rows csv2).
        induction Hall as [|row rows (p & Hp & Hb) _ IH'];
          intros rows2 Hrel; simpl in Hrel; inversion Hrel; subst;
          constructor.
        - destruct H1 as (p' & name & Hp' & Hname & ->).
          rewrite point_of_set_other in Hp' by assumption.
          rewrite Hp in Hp'. injection Hp' as <-.
          exists p, name. repeat split; try assumption.
          + apply dict_set_set.
          + now inversion Hb.
        - now apply IH'. }
      destruct (IH csv2 (S level) Hready2 Hu2)
        as (csv' & Hjoin' & Hheader' & Hrel'' & Hready' & Hu').
      * intros l Hl. apply Hclash. simpl. lia.
      * clear - Hrel' Hclash. 
        induction Hrel' as [|row row2 rows rows2
                              (p & name & Hp & Hname & -> & Hrest) _ IH'];
          constructor; [|assumption].
        exists p. split; [|assumption].
        destruct (Hclash level) as (Hlong & Hlat); [simpl; lia|].
        now rewrite point_of_set_other.
      * exists csv'. split; [assumption|].
        split.
        { rewrite Hheader', Hheader2. simpl. now rewrite <- app_assoc. }
        split; [|now split].
        clear - Hrel' Hrel'' Hlong Hlat.
        revert Hrel''. generalize (DictCSV.rows csv').
        induction Hrel' as [|row row2 rows rows2
                              (p & name & Hp & Hname & -> & Hrest) _ IH'];
          intros rows' Hrel''; inversion Hrel''; subst; constructor.
        -- destruct H1 as (p' & names & Hp' & Hnames & ->).
           rewrite point_of_set_other in Hp' by assumption.
           rewrite Hp in Hp'. injection Hp' as <-.
           exists p, (name :: names). repeat split; try assumption.
           now constructor.
        -- now apply IH'.
Qed.

End JoinFacts.

(* ================================================================= *)
(** ** The joined records and the markers *)

Section Records.
Context {shapely : Shapely} {numpy : Numpy} {builtins : Builtins}.

Import CSV2GeoJSON.

(** The constructor on an empty list of boundary files. *)
Lemma init_nil (csv_file : list (list string)) (long_col lat_col : string) :
  init csv_file long_col lat_col [] =
  (table <- DictCSV.init csv_file ;;
   Ok {| boundaries := []; csv := table;
         long_col := long_col; lat_col := lat_col |}).
Proof. reflexivity. Qed.

(** C8.  Without boundary files the table of the result is the table read
    from the CSV file: the same header, the same rows, nothing added. *)
Theorem join_without_boundaries_is_noop (csv_file : list (list string))
    (long_col lat_col : string) :
  init csv_file long_col lat_col [] =
  match DictCSV.init csv_file with
  | Ok table => Ok {| boundaries := []; csv := table;
                      long_col := long_col; lat_col := lat_col |}
  | Raise e => Raise e
  end.
Proof. rewrite init_nil. now destruct (DictCSV.init csv_file). Qed.


Lemma to_feature_ok (self : t) (row : dict json) (x y : float) :
  coordinate row (long_col self) = Ok x ->
  coordinate row (lat_col self) = Ok y ->
  to_feature self row = Ok (marker row x y).
Proof.
  unfold coordinate, to_feature. intros -> ->. reflexivity.
Qed.

(** C6.  When the coordinates of every record parse, the markers are as
    many as the records, in their order, each with the record as its
    properties and the two parsed numbers as its coordinates. *)
Theorem markers_mirror_records (self : t) :
  Forall (fun row => exists x y,
            coordinate row (long_col self) = Ok x /\
            coordinate row (lat_col self) = Ok y)
         (DictCSV.rows (csv self)) ->
  exists features,
    markers self = Ok features /\
    dump_markers self
    = Ok (JObject [("type", JString "FeatureCollection");
                   ("features", JArray features)]) /\
    List.length features = List.length (DictCSV.rows (csv self)) /\
    Forall2 (fun row feature => exists x y,
               coordinate row (long_col self) = Ok x /\
               coordinate row (lat_col self) = Ok y /\
               feature = marker row x y /\
               getitem feature "properties" = Ok (JObject row) /\
               (geometry <- getitem feature "geometry" ;;
                getitem geometry "coordinates")
               = Ok (JArray [JFloat x; JFloat y]))
            (DictCSV.rows (csv self)) features.
Proof.
  intros Hall.
  assert (exists features,
            markers self = Ok features /\
            Forall2 (fun row feature => exists x y,
               coordinate row (long_col self) = Ok x /\
               coordinate row (lat_col self) = Ok y /\
               feature = marker row x y /\
               getitem feature "properties" = Ok (JObject row) /\
               (geometry <- getitem feature "geometry" ;;
                getitem geometry "coordinates")
               = Ok (JArray [JFloat x; JFloat y]))
              (DictCSV.rows (csv self)) features)
    as (features & Hm & Hrel).
  { unfold markers.
    induction Hall as [|row rows (x & y & Hx & Hy) _ (features & Hm & Hrel)];
      simpl.
    - exists []. split; [reflexivity|constructor].
    - exists (marker row x y :: features).
      rewrite (to_feature_ok self row x y Hx Hy), Hm. simpl.
      split; [reflexivity|]. constructor; [|assumption].
      exists x, y. repeat split; assumption. }
  exists features. split; [assumption|].
  split; [unfold dump_markers; now rewrite Hm|].
  split; [symmetry; eapply Forall2_length, Hrel|assumption].
Qed.

End Records.

(* ================================================================= *)
(** ** Records whose coordinates cannot be read *)

Lemma is_ok_bind_false {A B} (m : result A) (k : A -> result B) :
  is_ok m = false -> is_ok (bind m k) = false.
Proof. now destruct m. Qed.

Section Failures.
Context {shapely : Shapely} {numpy : Numpy} {builtins : Builtins}.

Import CSV2GeoJSON.

(** [__to_feature] and the join read the coordinates of a row in different
    orders but fail on the same rows. *)
Lemma to_feature_point_of (self : t) (row : dict json) :
  is_ok (to_feature self row)
  = is_ok (point_of (long_col self) (lat_col self) row).
Proof.
  unfold to_feature, point_of, dict_item.
  destruct (dict_get row (long_col self)) as [lng|];
    destruct (dict_get row (lat_col self)) as [lat|]; simpl;
    try reflexivity.
  - destruct (py_float lng); simpl; [|reflexivity].
    now destruct (py_float lat).
  - now destruct (py_float lng).
Qed.

Lemma join_row_rows (boundary : GeoBoundary.t) (long_col lat_col col : string)
    (csv csv' : DictCSV.t) (row_id : nat) (row : dict json) :
  join_row boundary long_col lat_col col csv row_id row = Ok csv' ->
  exists region,
    DictCSV.rows csv'
    = list_update (DictCSV.rows csv) row_id (dict_set row col region) /\
    DictCSV.header csv' = DictCSV.header csv.
Proof.
  unfold join_row. intros H. bind_inv H. bind_inv H.
  apply set_row_rows in H. destruct H as (_ & Hr & Hh). eauto.
Qed.

(** The loop over the rows does not get past a row it cannot read. *)
Lemma join_rows_fail (boundary : GeoBoundary.t) (long_col lat_col col : string)
    (todo : nat) :
  forall (csv : DictCSV.t) (row_id i : nat) (row : dict json),
    row_id <= i < row_id + todo ->
    nth_error (DictCSV.rows csv) i = Some row ->
    is_ok (point_of long_col lat_col row) = false ->
    is_ok (join_rows boundary long_col lat_col col csv row_id todo) = false.
Proof.
  induction todo as [|todo IH]; intros csv row_id i row Hi Hrow Hbad; [lia|].
  simpl.
  destruct (nth_error (DictCSV.rows csv) row_id) as [row0|] eqn:E.
  - destruct (Nat.eq_dec row_id i) as [->|Hne].
    + rewrite Hrow in E. injection E as <-.
      apply is_ok_bind_false. unfold join_row. now apply is_ok_bind_false.
    + destruct (join_row boundary long_col lat_col col csv row_id row0)
        as [csv'|e] eqn:Ej; [|reflexivity].
      simpl. apply join_row_rows in Ej. destruct Ej as (region & Hr & _).
      apply (IH csv' (S row_id) i row); [lia| |assumption].
      rewrite Hr, nth_error_list_update.
      destruct (Nat.eqb_spec i row_id); [lia|assumption].
  - exfalso. apply nth_error_None in E.
    assert (i < List.length (DictCSV.rows csv))
      by (apply nth_error_Some; congruence). lia.
Qed.

Lemma join_levels_fail (long_col lat_col : string) (csv : DictCSV.t)
    (level : nat) (boundary : GeoBoundary.t) (rest : list GeoBoundary.t)
    (row : dict json) :
  In row (DictCSV.rows csv) ->
  is_ok (point_of long_col lat_col row) = false ->
  col_name level <> long_col -> col_name level <> lat_col ->
  is_ok (join_levels long_col lat_col csv level (boundary :: rest)) = false.
Proof.
  intros Hin Hbad Hlong Hlat. simpl. apply is_ok_bind_false.
  apply In_nth_error in Hin. destruct Hin as (i & Hi).
  apply (join_rows_fail boundary long_col lat_col (col_name level) _ _ 0 i
           (dict_set row (col_name level) (JString ""))).
  - simpl. rewrite length_map. assert (i < List.length (DictCSV.rows csv))
      by (apply nth_error_Some; congruence). lia.
  - simpl. rewrite nth_error_map, Hi. reflexivity.
  - now rewrite point_of_set_other.
Qed.

(** A coordinate column that is the column the join has just added holds
    the empty string, which [float] does not read. *)
Lemma point_of_blank (long_col lat_col col : string) (row : dict json) :
  col = long_col \/ col = lat_col ->
  is_ok (py_float (JString "")) = false ->
  is_ok (point_of long_col lat_col (dict_set row col (JString ""))) = false.
Proof.
  intros Hcol Hblank. unfold point_of, dict_item.
  destruct (String.eqb_spec col long_col) as [->|Hlong].
  - rewrite dict_get_set_same.
    destruct (dict_get (dict_set row long_col (JString "")) lat_col);
      [|reflexivity].
    cbn [bind]. now apply is_ok_bind_false.
  - destruct Hcol as [E| ->]; [contradiction|].
    rewrite dict_get_set_same.
    destruct (dict_get (dict_set row lat_col (JString "")) long_col) as [lng|];
      [|reflexivity].
    cbn [bind]. destruct (py_float lng); [|reflexivity].
    cbn [bind]. now apply is_ok_bind_false.
Qed.

(** The join fails at its first level on a table with an unreadable row,
    whatever the coordinate columns are called. *)
Lemma join_levels_unreadable (long_col lat_col : string) (csv : DictCSV.t)
    (level : nat) (boundary : GeoBoundary.t) (rest : list GeoBoundary.t)
    (row : dict json) :
  In row (DictCSV.rows csv) ->
  is_ok (point_of long_col lat_col row) = false ->
  is_ok (py_float (JString "")) = false ->
  is_ok (join_levels long_col lat_col csv level (boundary :: rest)) = false.
Proof.
  intros Hin Hbad Hblank.
  destruct (string_dec (col_name level) long_col) as [Hlong|Hlong];
    [|destruct (string_dec (col_name level) lat_col) as [Hlat|Hlat]];
    [| |now apply (join_levels_fail long_col lat_col csv level boundary rest
                    row)].
  all: simpl; apply is_ok_bind_false;
    apply In_nth_error in Hin; destruct Hin as (i & Hi);
    apply (join_rows_fail boundary long_col lat_col (col_name level) _ _ 0 i
             (dict_set row (col_name level) (JString "")));
    [ simpl; rewrite length_map;
      assert (i < List.length (DictCSV.rows csv))
        by (apply nth_error_Some; congruence); lia
    | simpl; rewrite nth_error_map, Hi; reflexivity
    | apply point_of_blank; auto ].
Qed.

(** C7, as the program has it.  A record whose coordinates cannot be read
    makes the join fail when there is a boundary file, makes the emission
    of the markers fail in every case, and so makes the run fail: nothing
    is handed to [json.dump].  The exception is the one Python raises:
    the join reads the two cells of a record before it converts either,
    the emission converts the longitude before it reads the latitude.
    [float] is taken not to read the empty string. *)
Theorem unreadable_coordinates_abort (csv_file : list (list string))
    (long_col lat_col : string) (boundary_files : list json)
    (table : DictCSV.t) (row : dict json) :
  DictCSV.init csv_file = Ok table ->
  In row (DictCSV.rows table) ->
  is_ok (point_of long_col lat_col row) = false ->
  is_ok (py_float (JString "")) = false ->
  (boundary_files <> [] ->
   is_ok (init csv_file long_col lat_col boundary_files) = false) /\
  (forall self : t,
     In row (DictCSV.rows (csv self)) ->
     long_col = CSV2GeoJSON.long_col self ->
     lat_col = CSV2GeoJSON.lat_col self ->
     is_ok (markers self) = false /\ is_ok (dump_markers self) = false) /\
  (forall (self : t) good bad rest e,
     DictCSV.rows (csv self) = good ++ bad :: rest ->
     Forall (fun r => is_ok (to_feature self r) = true) good ->
     to_feature self bad = Raise e ->
     dump_markers self = Raise e) /\
  (dict_get row long_col = None \/ dict_get row lat_col = None ->
   point_of long_col lat_col row = Raise KeyError) /\
  (forall lng lat e,
     dict_get row long_col = Some lng -> dict_get row lat_col = Some lat ->
     py_float lng = Raise e \/
     (is_ok (py_float lng) = true /\ py_float lat = Raise e) ->
     point_of long_col lat_col row = Raise e) /\
  (forall self : t,
     long_col = CSV2GeoJSON.long_col self ->
     lat_col = CSV2GeoJSON.lat_col self ->
     (dict_get row long_col = None -> to_feature self row = Raise KeyError) /\
     (forall lng e,
        dict_get row long_col = Some lng -> py_float lng = Raise e ->
        to_feature self row = Raise e) /\
     (forall lng,
        dict_get row long_col = Some lng -> is_ok (py_float lng) = true ->
        dict_get row lat_col = None ->
        to_feature self row = Raise KeyError) /\
     (forall lng lat e,
        dict_get row long_col = Some lng -> is_ok (py_float lng) = true ->
        dict_get row lat_col = Some lat -> py_float lat = Raise e ->
        to_feature self row = Raise e)) /\
  is_ok (main csv_file long_col lat_col boundary_files) = false.
Proof.
  intros Htable Hin Hbad Hblank.
  assert (Hjoin : boundary_files <> [] ->
                  is_ok (init csv_file long_col lat_col boundary_files) = false).
  { intros Hne. unfold init.
    destruct (mapM GeoBoundary.init boundary_files) as [bs|e] eqn:Eb;
      [|reflexivity].
    cbn [bind]. rewrite Htable. cbn [bind].
    destruct boundary_files as [|f fs]; [congruence|].
    cbn [List.length Nat.eqb]. apply is_ok_bind_false.
    destruct bs as [|b bs];
      [apply mapM_length in Eb; discriminate|].
    now apply (join_levels_unreadable long_col lat_col table 0 b bs row). }
  assert (Hemit : forall self : t,
     In row (DictCSV.rows (csv self)) ->
     long_col = CSV2GeoJSON.long_col self ->
     lat_col = CSV2GeoJSON.lat_col self ->
     is_ok (markers self) = false /\ is_ok (dump_markers self) = false).
  { intros self Hrow -> ->.
    assert (Hm : is_ok (markers self) = false).
    { unfold markers. apply (mapM_raises _ _ row Hrow).
      now rewrite to_feature_point_of. }
    split; [assumption|]. unfold dump_markers. now apply is_ok_bind_false. }
  split; [assumption|]. split; [assumption|].
  split; [|split; [|split; [|split]]].
  - intros self good bad rest e Hrows Hgood Hbad'. unfold dump_markers, markers.
    rewrite Hrows, (mapM_first_raise _ good rest bad e); [reflexivity| |assumption].
    intros r Hr. rewrite Forall_forall in Hgood. apply is_ok_true, Hgood, Hr.
  - unfold point_of, dict_item. intros [-> | ->]; [reflexivity|].
    now destruct (dict_get row long_col).
  - intros lng lat e Hlng Hlat He. unfold point_of, dict_item.
    rewrite Hlng, Hlat. cbn [bind].
    destruct He as [-> |(Hok & Hlat')]; [reflexivity|].
    apply is_ok_true in Hok. destruct Hok as (x & ->). cbn [bind].
    now rewrite Hlat'.
  - intros self -> ->. unfold to_feature, dict_item.
    split; [|split; [|split]].
    + now intros ->.
    + intros lng e -> He. cbn [bind]. now rewrite He.
    + intros lng -> Hok ->. apply is_ok_true in Hok.
      destruct Hok as (x & Hx). cbn [bind]. now rewrite Hx.
    + intros lng lat e -> Hok -> He. apply is_ok_true in Hok.
      destruct Hok as (x & Hx). cbn [bind]. rewrite Hx. cbn [bind].
      now rewrite He.
  - unfold main. destruct boundary_files as [|f fs].
    + rewrite init_nil, Htable. cbn [bind].
      now apply (Hemit {| boundaries := []; csv := table;
                          long_col := long_col; lat_col := lat_col |}).
    + apply is_ok_bind_false. apply Hjoin. discriminate.
Qed.

End Failures.

(* ================================================================= *)
(** ** The fields of the rows along the join *)

Section Uniform.
Context {shapely : Shapely} {numpy : Numpy} {builtins : Builtins}.

Import CSV2GeoJSON.

Lemma join_row_uniform (boundary : GeoBoundary.t)
    (long_col lat_col col : string) (csv csv' : DictCSV.t) (row_id : nat)
    (row : dict json) :
  uniform csv ->
  nth_error (DictCSV.rows csv) row_id = Some row ->
  In col (DictCSV.header csv) ->
  join_row boundary long_col lat_col col csv row_id row = Ok csv' ->
  uniform csv' /\ DictCSV.header csv' = DictCSV.header csv.
Proof.
  intros Hu Hrow Hcol H. unfold join_row in H. bind_inv H. bind_inv H.
  split; [|now apply set_row_rows in H].
  eapply set_row_uniform; [exact Hu| |exact H].
  assert (Hkeys : same_keys row (DictCSV.header csv)).
  { unfold uniform in Hu. rewrite Forall_forall in Hu.
    apply Hu. eapply nth_error_In, Hrow. }
  intros k. rewrite dict_set_keys, (Hkeys k). intuition congruence.
Qed.

Lemma join_rows_uniform (boundary : GeoBoundary.t)
    (long_col lat_col col : string) (todo : nat) :
  forall (csv csv' : DictCSV.t) (row_id : nat),
    uniform csv -> In col (DictCSV.header csv) ->
    join_rows boundary long_col lat_col col csv row_id todo = Ok csv' ->
    uniform csv' /\ DictCSV.header csv' = DictCSV.header csv.
Proof.
  induction todo as [|todo IH]; intros csv csv' row_id Hu Hcol H; simpl in H.
  - injection H as <-. auto.
  - destruct (nth_error (DictCSV.rows csv) row_id) as [row|] eqn:E.
    + bind_inv H.
      destruct (join_row_uniform _ _ _ _ _ _ _ _ Hu E Hcol E0) as (Hu1 & Hh1).
      destruct (IH a csv' (S row_id) Hu1) as (Hu' & Hh'); [congruence|assumption|].
      split; [assumption|congruence].
    + injection H as <-. auto.
Qed.

Lemma join_levels_uniform (long_col lat_col : string)
    (boundaries : list GeoBoundary.t) :
  forall (csv csv' : DictCSV.t) (level : nat),
    uniform csv ->
    join_levels long_col lat_col csv level boundaries = Ok csv' ->
    uniform csv'.
Proof.
  induction boundaries as [|b rest IH]; intros csv csv' level Hu H; simpl in H.
  - now injection H as <-.
  - bind_inv H.
    apply join_rows_uniform in E.
    + eapply IH; [|exact H]. apply E.
    + now apply add_col_uniform.
    + simpl. apply in_app_iff. right. now left.
Qed.

(** C10, as the program has it.  Every row has exactly the fields of the
    header after the construction from rows as long as the header, after
    [add_col], after [set_row] with a row that has exactly the fields of the
    header, after every row of the join and at its end. *)
Theorem rows_keep_the_header_fields :
  (forall header body csv,
     Forall (fun r => List.length r = List.length header) body ->
     DictCSV.init (header :: body) = Ok csv -> uniform csv) /\
  (forall csv name,
     uniform csv ->
     uniform (DictCSV.add_col csv name) /\
     DictCSV.header (DictCSV.add_col csv name) = DictCSV.header csv ++ [name] /\
     DictCSV.rows (DictCSV.add_col csv name)
     = map (fun row => dict_set row name (JString "")) (DictCSV.rows csv)) /\
  (forall csv csv' row_id row,
     uniform csv -> same_keys row (DictCSV.header csv) ->
     DictCSV.set_row csv row_id row = Ok csv' -> uniform csv') /\
  (forall boundary long_col lat_col col csv csv' row_id row,
     uniform csv ->
     nth_error (DictCSV.rows csv) row_id = Some row ->
     In col (DictCSV.header csv) ->
     join_row boundary long_col lat_col col csv row_id row = Ok csv' ->
     uniform csv') /\
  (forall header body long_col lat_col boundary_files self,
     Forall (fun r => List.length r = List.length header) body ->
     init (header :: body) long_col lat_col boundary_files = Ok self ->
     uniform (csv self)).
Proof.
  split; [exact init_uniform|].
  split; [intros csv name Hu; split; [now apply add_col_uniform|now split]|].
  split; [exact set_row_uniform|].
  split.
  - intros boundary long_col lat_col col csv csv' row_id row Hu Hrow Hcol H.
    eapply join_row_uniform; eassumption.
  - intros header body long_col lat_col boundary_files self Hlen H.
    unfold init in H. bind_inv H. bind_inv H.
    pose proof (init_uniform header body a0 Hlen E0) as Hu.
    destruct (Nat.eqb (List.length boundary_files) 0).
    + now injection H as <-.
    + bind_inv H. injection H as <-. simpl.
      eapply join_levels_uniform; eassumption.
Qed.

End Uniform.

(* ================================================================= *)
(** ** What loading checks *)

Section Loading.
Context {shapely : Shapely} {numpy : Numpy} {builtins : Builtins}.

(** C3, as the program has it.  A boundary file loads exactly when it has a
    [features] member that can be iterated and every feature has a
    [geometry] member that shapely turns into a shape; and a file that
    does not load makes the constructor fail with the same exception,
    whatever the CSV file is. *)
Theorem load_succeeds_exactly_when :
  (forall file,
     is_ok (GeoBoundary.init file) = true <->
     exists places features,
       getitem file "features" = Ok places /\
       iter places = Ok features /\
       Forall (fun f => exists g s, getitem f "geometry" = Ok g /\
                                    shape g = Ok s) features) /\
  (forall csv_file long_col lat_col boundary_files e,
     mapM GeoBoundary.init boundary_files = Raise e ->
     CSV2GeoJSON.init csv_file long_col lat_col boundary_files = Raise e).
Proof.
  split.
  - intros file. rewrite is_ok_true. split.
    + intros (self & H). apply init_ok in H.
      destruct H as (places & features & shapes & Hp & Hi & Hs & _).
      exists places, features. repeat split; try assumption.
      clear - Hs. induction Hs as [|f s fs ss Hf _ IH]; constructor;
        [|assumption].
      unfold GeoBoundary.to_shape in Hf. bind_inv Hf. eauto.
    + intros (places & features & Hp & Hi & Hall).
      assert (exists shapes,
                Forall2 (fun f s => GeoBoundary.to_shape f = Ok s)
                        features shapes) as (shapes & Hs).
      { clear - Hall.
        induction Hall as [|f fs (g & s & Hg & Hs) _ (shapes & IH)].
        - exists []. constructor.
        - exists (s :: shapes). constructor; [|assumption].
          unfold GeoBoundary.to_shape. now rewrite Hg. }
      eexists. apply init_ok. eauto 8.
  - intros csv_file long_col lat_col boundary_files e H.
    unfold CSV2GeoJSON.init. now rewrite H.
Qed.

End Loading.

(* ================================================================= *)
(** ** The examples, run *)

Section Scenarios.

Import Examples.

#[local] Open Scope float_scope.


(** The markers of the two joined records. *)
Lemma markers_mirror_records_witness :
  exists self features,
    @CSV2GeoJSON.init boxes flat decimal two_records "longitude" "latitude"
      [boundary_A] = Ok self /\
    CSV2GeoJSON.markers (builtins := decimal) self = Ok features /\
    List.length features = 2%nat.
Proof.
  eexists.
  edestruct (markers_mirror_records (shapely := boxes) (builtins := decimal))
    as (features & Hm & _ & Hlen & _);
    [|exists features; split; [reflexivity|split; [exact Hm|exact Hlen]]].
  repeat constructor; do 2 eexists; split; reflexivity.
Defined.

(** A file without a latitude column, joined against the square; and a
    record whose longitude is not a number and whose latitude is missing,
    which the join refuses with [KeyError] and the emission with
    [ValueError]. *)
Lemma unreadable_coordinates_abort_witness :
  is_ok (@CSV2GeoJSON.main boxes flat decimal no_latitude
           "longitude" "latitude" [boundary_A]) = false /\
  CSV2GeoJSON.point_of (builtins := decimal) "longitude" "latitude"
    [("id", JString "a"); ("longitude", JString "x")] = Raise KeyError /\
  CSV2GeoJSON.to_feature (shapely := boxes) (builtins := decimal)
    {| CSV2GeoJSON.boundaries := [];
       CSV2GeoJSON.csv := {| DictCSV.header := []; DictCSV.rows := [];
                             DictCSV.cols := [] |};
       CSV2GeoJSON.long_col := "longitude";
       CSV2GeoJSON.lat_col := "latitude" |}
    [("id", JString "a"); ("longitude", JString "x")] = Raise ValueError.
Proof.
  split.
  - edestruct (@unreadable_coordinates_abort boxes flat decimal no_latitude
                 "longitude" "latitude" [boundary_A])
      as (_ & _ & _ & _ & _ & _ & Hmain).
    + reflexivity.
    + left. reflexivity.
    + reflexivity.
    + reflexivity.
    + exact Hmain.
  - edestruct (@unreadable_coordinates_abort boxes flat decimal
                 [["id"; "longitude"]; ["a"; "x"]]
                 "longitude" "latitude" [boundary_A])
      as (_ & _ & _ & Hkey & _ & Hemit & _).
    + reflexivity.
    + left. reflexivity.
    + reflexivity.
    + reflexivity.
    + split; [apply Hkey; now right|].
      destruct (Hemit {| CSV2GeoJSON.boundaries := [];
                         CSV2GeoJSON.csv :=
                           {| DictCSV.header := []; DictCSV.rows := [];
                              DictCSV.cols := [] |};
                         CSV2GeoJSON.long_col := "longitude";
                         CSV2GeoJSON.lat_col := "latitude" |}
                  eq_refl eq_refl) as (_ & Hvalue & _).
      eapply Hvalue; reflexivity.
Defined.

(** C7 as stated fails: without boundary files the join does not read the
    coordinates, and succeeds on a file that has no latitude column. *)
Lemma join_without_boundaries_skips_parsing :
  (exists table row,
     DictCSV.init no_latitude = Ok table /\
     In row (DictCSV.rows table) /\
     dict_get row "latitude" = None) /\
  (forall (shapely : Shapely) (numpy : Numpy) (builtins : Builtins),
     exists self,
       CSV2GeoJSON.init no_latitude "longitude" "latitude" [] = Ok self).
Proof.
  split.
  - eexists. eexists. split; [reflexivity|]. split; [now left|reflexivity].
  - intros. eexists. reflexivity.
Qed.

(** The rows of the joined example have the fields of its header. *)
Lemma rows_keep_the_header_fields_witness :
  exists self,
    @CSV2GeoJSON.init boxes flat decimal two_records "longitude" "latitude"
      [boundary_A; boundary_WE] = Ok self /\
    uniform (CSV2GeoJSON.csv self).
Proof.
  eexists. split; [reflexivity|].
  destruct (@rows_keep_the_header_fields boxes flat decimal)
    as (_ & _ & _ & _ & Hjoin).
  eapply (Hjoin ["id"; "longitude"; "latitude"]
                [["a"; "1"; "1"]; ["b"; "10"; "10"]]
                "longitude" "latitude" [boundary_A; boundary_WE]).
  - repeat constructor.
  - reflexivity.
Defined.

(** C10 as stated fails: a row that contains every field of the header and
    one more is stored by [set_row], and is then a row whose fields are
    not those of the header. *)
Lemma set_row_extra_field_breaks_uniformity :
  exists table row,
    DictCSV.init [["a"]; ["1"]] = Ok table /\
    uniform table /\
    (forall k, In k (DictCSV.header table) -> In k (keys row)) /\
    forall builtins : Builtins,
    exists table',
      DictCSV.set_row table 0 row = Ok table' /\ ~ uniform table'.
Proof.
  eexists. exists [("a", JString "1"); ("b", JString "2")].
  split; [reflexivity|]. split; [|split].
  - unfold uniform. simpl. constructor; [|constructor].
    intros k. simpl. tauto.
  - simpl. intros k [<-|[]]. now left.
  - intros builtins. eexists. split; [reflexivity|].
    unfold uniform. simpl. intros H. inversion H as [|? ? Hrow _]; subst.
    destruct (proj1 (Hrow "b")) as [E|[]]; [simpl; auto|discriminate].
Qed.

(** The square loads, and a file that does not load stops the constructor. *)
Lemma load_succeeds_exactly_when_witness :
  is_ok (@GeoBoundary.init boxes boundary_A) = true /\
  @CSV2GeoJSON.init boxes flat decimal two_records "longitude" "latitude"
    [JNull] = Raise TypeError.
Proof.
  destruct (@load_succeeds_exactly_when boxes flat decimal) as (Hload & Hstop).
  split.
  - apply Hload. exists (JArray [region_A]), [region_A].
    repeat split. repeat constructor. do 2 eexists. split; reflexivity.
  - apply Hstop. reflexivity.
Defined.

(** C3 as stated fails: a feature without [shapeName], and a feature whose
    geometry is a point, are loaded whenever shapely builds their shapes. *)
Lemma load_does_not_validate :
  (~ spec_valid_source unlabelled /\
   forall (shapely : Shapely) (s : Shape),
     shape square = Ok s ->
     exists self, GeoBoundary.init unlabelled = Ok self) /\
  (~ spec_valid_source pointed /\
   forall (shapely : Shapely) (s : Shape),
     shape origin = Ok s ->
     exists self, GeoBoundary.init pointed = Ok self).
Proof.
  split; split.
  - intros (features & Hf & Hall). injection Hf as <-.
    inversion Hall as [|? ? (_ & properties & name & Hp & Hn) _]; subst.
    injection Hp as <-. discriminate.
  - intros shapely s Hs. eexists.
    unfold GeoBoundary.init, GeoBoundary.to_shape. simpl.
    rewrite Hs. reflexivity.
  - intros (features & Hf & Hall). injection Hf as <-.
    inversion Hall as [|? ? ((g & Hg & Ht) & _) _]; subst.
    injection Hg as <-. destruct Ht as [Ht|Ht]; discriminate.
  - intros shapely s Hs. eexists.
    unfold GeoBoundary.init, GeoBoundary.to_shape. simpl.
    rewrite Hs. reflexivity.
Qed.

End Scenarios.

(* ================================================================= *)
(** ** The great-circle distance *)

Section Distance.
Context {numpy : Numpy}.

Import GeoBoundary.

#[local] Open Scope float_scope.

(** C4, as the program has it.  The distance does not depend on the order
    of the two points, is never negative, and is zero from a point with
    finite coordinates to itself. *)
Theorem haversine_symmetric_nonnegative (a b : Point) :
  NumpyLaws numpy ->
  haversine a b = haversine b a /\
  (haversine a b <? 0) = false /\
  (finite_point a -> haversine a a = 0).
Proof.
  intros L. split; [now apply haversine_symmetric|].
  split; [now apply haversine_not_negative|].
  now apply haversine_same_point.
Qed.

End Distance.

Section DistanceScenarios.

Import Examples.

#[local] Open Scope float_scope.

Lemma haversine_symmetric_nonnegative_witness :
  @GeoBoundary.haversine flat (mkPoint 1 2) (mkPoint 3 4)
  = @GeoBoundary.haversine flat (mkPoint 3 4) (mkPoint 1 2) /\
  @GeoBoundary.haversine flat (mkPoint 1 2) (mkPoint 1 2) = 0.
Proof.
  destruct (@haversine_symmetric_nonnegative flat (mkPoint 1 2) (mkPoint 3 4)
              flat_laws) as (Hsym & _ & Hzero).
  split; [exact Hsym|]. apply Hzero. split; reflexivity.
Defined.

(** C4 as stated fails: two points that [==] tells apart are at distance
    zero, for every [numpy] whose [deg2rad] multiplies by [pi / 180] and
    whose functions are exact at 0. *)
Lemma distinct_points_at_distance_zero :
  let a := mkPoint 0 0 in
  let b := mkPoint 0 0x1p-1074 in
  ((px a =? px b) && (py a =? py b) = false) /\
  finite_point a /\ finite_point b /\
  forall numpy : Numpy,
    (forall x, np_deg2rad x = x * rad_per_degree) ->
    np_sin 0 = 0 -> np_cos 0 = 1 -> np_power 0 2 = 0 ->
    np_arctan2 0 1 = 0 ->
    GeoBoundary.haversine a b = 0.
Proof.
  split; [reflexivity|]. split; [split; reflexivity|].
  split; [split; reflexivity|].
  intros numpy Hd Hs Hc Hp Ha. unfold GeoBoundary.haversine. simpl px; simpl py.
  rewrite !Hd.
  change (0 * rad_per_degree) with 0.
  change (0x1p-1074 * rad_per_degree) with 0.
  change (0 - 0) with 0. change (0 / 2) with 0.
  rewrite Hs, Hp, Hc.
  change (0 + 1 * 1 * 0) with 0.
  change (np_sqrt 0) with 0. change (np_sqrt (1 - 0)) with 1.
  rewrite Ha. reflexivity.
Qed.

End DistanceScenarios.

(* ================================================================= *)
(** ** Reading and writing the table *)

Section Table.
Context {builtins : Builtins}.

Import DictCSV.

Lemma dict_set_keys_present {V} (d : dict V) (k : string) (v : V) :
  In k (keys d) -> keys (dict_set d k v) = keys d.
Proof.
  induction d as [|(k0, v0) d IH]; simpl; intros H; [contradiction|].
  destruct (String.eqb_spec k0 k) as [->|Hne]; [reflexivity|].
  simpl. f_equal. apply IH. destruct H as [E|H]; [congruence|assumption].
Qed.

(** With distinct keys [dict(zip(ks, vs))] is the zipped list itself. *)
Lemma fold_dict_set_fresh {V} (kvs : list (string * V)) (d : dict V) :
  NoDup (keys d ++ map fst kvs) ->
  fold_left (fun d kv => dict_set d (fst kv) (snd kv)) kvs d = d ++ kvs.
Proof.
  revert d. induction kvs as [|(k, v) kvs IH]; intros d H; simpl.
  - now rewrite app_nil_r.
  - simpl in H. rewrite dict_set_fresh.
    + rewrite IH, <- app_assoc; [reflexivity|].
      unfold keys. rewrite map_app. simpl. now rewrite <- app_assoc.
    + apply NoDup_remove_2 in H. intros Hin. apply H.
      apply in_or_app. now left.
Qed.

Lemma NoDup_firstn {A} (l : list A) (n : nat) : NoDup l -> NoDup (firstn n l).
Proof.
  intros H. rewrite <- (firstn_skipn n l) in H.
  eapply NoDup_app_remove_r, H.
Qed.

Lemma map_fst_combine {A B} (l : list A) (l' : list B) :
  map fst (combine l l') = firstn (List.length l') l.
Proof.
  revert l'. induction l as [|x l IH]; intros [|y l']; simpl;
    try reflexivity.
  now rewrite IH.
Qed.

Lemma map_snd_combine {A B} (l : list A) (l' : list B) :
  map snd (combine l l') = firstn (List.length l) l'.
Proof.
  revert l'. induction l as [|x l IH]; intros [|y l']; simpl;
    try reflexivity.
  now rewrite IH.
Qed.

Lemma dict_zip_nodup {V} (ks : list string) (vs : list V) :
  NoDup ks -> dict_zip ks vs = combine ks vs.
Proof.
  intros H. unfold dict_zip. rewrite fold_dict_set_fresh; [reflexivity|].
  simpl. rewrite map_fst_combine. now apply NoDup_firstn.
Qed.

(** X1.  A table whose header has no repeated name and whose rows are as
    long as the header is written back by [dump] as it was read. *)
Theorem dump_after_init (header : list string) (body : list (list string))
    (csv : t) :
  NoDup header ->
  Forall (fun cells => List.length cells = List.length header) body ->
  init (header :: body) = Ok csv ->
  dump csv = map (map JString) (header :: body).
Proof.
  intros Hnd Hlen H. simpl in H. bind_inv H. injection H as <-.
  apply np_array_ok in E. subst a. unfold dump. simpl. f_equal.
  rewrite map_map. apply map_ext_in. intros cells Hin.
  rewrite Forall_forall in Hlen.
  rewrite (dict_zip_nodup header (map JString cells) Hnd), map_snd_combine.
  rewrite <- (Hlen cells Hin), <- (length_map JString cells).
  apply firstn_all.
Qed.

(** X3.  Under a header without repeated names a row is the header zipped
    with the cells of its line: cells beyond the header are dropped, and
    a field of the header beyond the cells is absent from the row. *)
Theorem init_rows_zip (header : list string) (body : list (list string))
    (csv : t) :
  NoDup header ->
  init (header :: body) = Ok csv ->
  DictCSV.header csv = header /\
  rows csv = map (fun cells => combine header (map JString cells)) body /\
  Forall2 (fun cells row =>
             keys row = firstn (List.length cells) header /\
             map snd row = map JString (firstn (List.length header) cells))
          body (rows csv).
Proof.
  intros Hnd H. simpl in H. bind_inv H. injection H as <-.
  apply np_array_ok in E. subst a. simpl.
  split; [reflexivity|].
  assert (Hrows : map (fun i => dict_zip header (map JString i)) body
                  = map (fun cells => combine header (map JString cells)) body).
  { apply map_ext. intros cells. now apply dict_zip_nodup. }
  rewrite Hrows. split; [reflexivity|].
  clear. induction body as [|cells body IH]; simpl; constructor;
    [|assumption].
  unfold keys. rewrite map_fst_combine, map_snd_combine, length_map.
  split; [reflexivity|]. now rewrite firstn_map.
Qed.

End Table.

(* ================================================================= *)
(** ** Rows, one at a time *)

Section Rows.
Context {builtins : Builtins}.

Import DictCSV.

(** X4.  After [set_row(row_id, row)] has returned, [get_row(row_id)] is
    [row], every other row is what it was, and the header and the number
    of rows have not changed. *)
Theorem get_row_after_set_row (csv csv' : t) (row_id : nat)
    (row : dict json) :
  set_row csv row_id row = Ok csv' ->
  get_row csv' row_id = Ok row /\
  (forall j, j <> row_id -> get_row csv' j = get_row csv j) /\
  header csv' = header csv /\
  List.length (rows csv') = List.length (rows csv).
Proof.
  intros H. apply set_row_rows in H. destruct H as (Hlt & Hr & Hh).
  unfold get_row, list_item. rewrite Hr.
  split; [|split; [|split]].
  - rewrite nth_error_list_update, Nat.eqb_refl.
    apply Nat.ltb_lt in Hlt. now rewrite Hlt.
  - intros j Hj. rewrite nth_error_list_update.
    destruct (Nat.eqb_spec j row_id); [contradiction|reflexivity].
  - assumption.
  - apply list_update_length.
Qed.

Lemma set_cols_missing_key (ks : list string) (cols : dict column)
    (row_id : nat) (row : dict json) (n : nat) :
  row_id < n ->
  (forall k, In k ks ->
     exists c, dict_get cols k = Some c /\ column_length c = n) ->
  (exists k, In k ks /\ ~ In k (keys row)) ->
  set_cols cols ks row_id row = Raise KeyError.
Proof.
  intros Hlt. revert cols. induction ks as [|k ks IH];
    intros cols Hcols (k0 & Hin & Hmiss); [contradiction|]. simpl.
  unfold dict_item at 1.
  destruct (dict_get row k) as [v|] eqn:Ev; [|reflexivity]. simpl.
  destruct (Hcols k (or_introl eq_refl)) as (c & Hc & Hn).
  unfold dict_item. rewrite Hc. simpl.
  destruct (column_setitem_ok c row_id v) as (c' & Hc' & Hn'); [lia|].
  rewrite Hc'. simpl. apply IH.
  - intros k1 Hk1. rewrite dict_get_set.
    destruct (String.eqb_spec k k1) as [<-|Hne].
    + exists c'. split; [reflexivity|lia].
    + apply Hcols. now right.
  - exists k0. split; [|assumption]. destruct Hin as [->|Hin]; [|assumption].
    exfalso. apply Hmiss. apply dict_get_keys. congruence.
Qed.

(** X5.  [set_row] raises [IndexError] for a [row_id] that is not the
    index of a row, and, on a table whose columns are as long as its rows,
    [KeyError] for a row that lacks a field of the header. *)
Theorem set_row_errors (csv : t) (row_id : nat) (row : dict json) :
  (List.length (rows csv) <= row_id ->
   set_row csv row_id row = Raise IndexError) /\
  (row_id < List.length (rows csv) ->
   columns_ready csv ->
   (exists k, In k (header csv) /\ ~ In k (keys row)) ->
   set_row csv row_id row = Raise KeyError).
Proof.
  split.
  - intros H. unfold set_row, list_setitem.
    destruct (Nat.ltb_spec row_id (List.length (rows csv))); [lia|reflexivity].
  - intros Hlt [Hempty|Hready] Hmiss;
      [rewrite Hempty in Hlt; simpl in Hlt; lia|].
    unfold set_row, list_setitem.
    destruct (Nat.ltb_spec row_id (List.length (rows csv))); [|lia]. simpl.
    now rewrite (set_cols_missing_key (header csv) (cols csv) row_id row
                   (List.length (rows csv)) Hlt Hready Hmiss).
Qed.

(** X6.  [add_col(name)] appends [name] to the header and keeps the number
    of rows; every row has the field [name] with the empty string, whatever
    it held before, and its other fields as they were.  A new name goes
    last in the row; a name the row already has keeps its place. *)
Theorem add_col_rows (csv : t) (name : string) :
  header (add_col csv name) = header csv ++ [name] /\
  Forall2 (fun row row' =>
             dict_get row' name = Some (JString "") /\
             (forall k, k <> name -> dict_get row' k = dict_get row k) /\
             (~ In name (keys row) -> keys row' = keys row ++ [name]) /\
             (In name (keys row) -> keys row' = keys row))
          (rows csv) (rows (add_col csv name)).
Proof.
  split; [reflexivity|]. simpl.
  induction (rows csv) as [|row rows IH]; simpl; constructor; [|assumption].
  split; [apply dict_get_set_same|].
  split; [intros k Hk; apply dict_get_set_other; congruence|].
  split.
  - intros Hfresh. rewrite dict_set_fresh by assumption.
    unfold keys. now rewrite map_app.
  - apply dict_set_keys_present.
Qed.

Lemma select_rows_ok (rows : list (dict json)) (col value : string) :
  Forall (fun row => In col (keys row)) rows ->
  select_rows rows col value
  = Ok (filter (fun row => match dict_get row col with
                           | Some cell => cell_eq cell value
                           | None => false
                           end) rows).
Proof.
  induction 1 as [|row rows Hrow _ IH]; simpl; [reflexivity|].
  apply dict_get_keys in Hrow. unfold dict_item.
  destruct (dict_get row col) as [cell|]; [|congruence]. simpl.
  rewrite IH. simpl. now destruct (cell_eq cell value).
Qed.

Lemma select_rows_raise (rows : list (dict json)) (col value : string) :
  Exists (fun row => ~ In col (keys row)) rows ->
  select_rows rows col value = Raise KeyError.
Proof.
  induction rows as [|row rows IH]; intros H; [inversion H|]. simpl.
  unfold dict_item. destruct (dict_get row col) as [cell|] eqn:E;
    [|reflexivity]. simpl.
  rewrite IH; [reflexivity|].
  inversion H as [? ? Hrow|]; subst; [|assumption].
  exfalso. apply Hrow. apply dict_get_keys. congruence.
Qed.

(** X7.  [get_rows_by_col(col, value)] returns, in the order of the table,
    the rows whose field [col] is the string [value], when every row has
    the field (as the rows of a uniform table do for a field of the
    header); it raises [KeyError] as soon as one row lacks the field. *)
Theorem get_rows_by_col_selects (csv : t) (col value : string) :
  (Forall (fun row => In col (keys row)) (rows csv) ->
   get_rows_by_col csv col value
   = Ok (filter (fun row => match dict_get row col with
                            | Some cell => cell_eq cell value
                            | None => false
                            end) (rows csv))) /\
  (uniform csv -> In col (header csv) ->
   exists found,
     get_rows_by_col csv col value = Ok found /\
     forall row, In row found <->
       In row (rows csv) /\ dict_get row col = Some (JString value)) /\
  (Exists (fun row => ~ In col (keys row)) (rows csv) ->
   get_rows_by_col csv col value = Raise KeyError).
Proof.
  split; [apply select_rows_ok|]. split; [|apply select_rows_raise].
  intros Hu Hcol. eexists. split.
  - apply select_rows_ok. unfold uniform in Hu.
    eapply Forall_impl; [|exact Hu]. intros row Hrow. now apply Hrow.
  - intros row. rewrite filter_In. split.
    + intros (Hin & Hc). split; [assumption|].
      destruct (dict_get row col) as [[]|]; simpl in Hc; try discriminate.
      apply String.eqb_eq in Hc. now subst.
    + intros (Hin & ->). split; [assumption|]. simpl. apply String.eqb_refl.
Qed.

End Rows.

(* ================================================================= *)
(** ** The order of the fields along the join *)

Section Alignment.
Context {shapely : Shapely} {numpy : Numpy} {builtins : Builtins}.

Import CSV2GeoJSON.

Lemma init_aligned (header : list string) (body : list (list string))
    (csv : DictCSV.t) :
  NoDup header ->
  Forall (fun cells => List.length cells = List.length header) body ->
  DictCSV.init (header :: body) = Ok csv ->
  aligned csv /\ DictCSV.header csv = header.
Proof.
  intros Hnd Hlen H.
  destruct (init_rows_zip header body csv Hnd H) as (Hh & _ & Hrel).
  split; [|assumption]. unfold aligned. rewrite Hh.
  clear - Hrel Hlen. induction Hrel as [|cells row body rows (Hk & _) _ IH];
    constructor.
  - inversion Hlen; subst. rewrite Hk, H1. apply firstn_all.
  - apply IH. now inversion Hlen.
Qed.

Lemma add_col_aligned (csv : DictCSV.t) (name : string) :
  aligned csv -> ~ In name (DictCSV.header csv) ->
  aligned (DictCSV.add_col csv name).
Proof.
  unfold aligned. simpl. intros H Hfresh. apply Forall_map.
  eapply Forall_impl; [|exact H]. simpl. intros row Hrow.
  rewrite dict_set_fresh by now rewrite Hrow.
  unfold keys in *. now rewrite map_app, Hrow.
Qed.

Lemma join_row_aligned (boundary : GeoBoundary.t)
    (long_col lat_col col : string) (csv csv' : DictCSV.t) (row_id : nat)
    (row : dict json) :
  aligned csv ->
  nth_error (DictCSV.rows csv) row_id = Some row ->
  In col (DictCSV.header csv) ->
  join_row boundary long_col lat_col col csv row_id row = Ok csv' ->
  aligned csv' /\ DictCSV.header csv' = DictCSV.header csv.
Proof.
  intros Ha Hrow Hcol H. unfold join_row in H. bind_inv H. bind_inv H.
  apply set_row_rows in H. destruct H as (_ & Hr & Hh).
  split; [|assumption]. unfold aligned in *. rewrite Hr, Hh.
  apply Forall_list_update; [assumption|].
  rewrite Forall_forall in Ha.
  pose proof (Ha row (nth_error_In _ _ Hrow)) as Hk.
  rewrite dict_set_keys_present; [assumption|]. now rewrite Hk.
Qed.

Lemma join_rows_aligned (boundary : GeoBoundary.t)
    (long_col lat_col col : string) (todo : nat) :
  forall (csv csv' : DictCSV.t) (row_id : nat),
    aligned csv -> In col (DictCSV.header csv) ->
    join_rows boundary long_col lat_col col csv row_id todo = Ok csv' ->
    aligned csv' /\ DictCSV.header csv' = DictCSV.header csv.
Proof.
  induction todo as [|todo IH]; intros csv csv' row_id Ha Hcol H; simpl in H.
  - injection H as <-. auto.
  - destruct (nth_error (DictCSV.rows csv) row_id) as [row|] eqn:E.
    + bind_inv H.
      destruct (join_row_aligned _ _ _ _ _ _ _ _ Ha E Hcol E0) as (Ha1 & Hh1).
      destruct (IH a csv' (S row_id) Ha1) as (Ha' & Hh');
        [congruence|assumption|].
      split; [assumption|congruence].
    + injection H as <-. auto.
Qed.

Lemma join_levels_aligned (long_col lat_col : string)
    (boundaries : list GeoBoundary.t) :
  forall (csv csv' : DictCSV.t) (level : nat),
    aligned csv ->
    (forall l, level <= l < level + List.length boundaries ->
               ~ In (col_name l) (DictCSV.header csv)) ->
    join_levels long_col lat_col csv level boundaries = Ok csv' ->
    aligned csv' /\
    DictCSV.header csv'
    = DictCSV.header csv ++ map col_name (seq level (List.length boundaries)).
Proof.
  induction boundaries as [|b rest IH]; intros csv csv' level Ha Hfresh H;
    simpl in H.
  - injection H as <-. simpl. now rewrite app_nil_r.
  - bind_inv H. apply join_rows_aligned in E.
    + destruct E as (Ha1 & Hh1). simpl in Hh1.
      destruct (IH a csv' (S level) Ha1) as (Ha' & Hh'); [|assumption|].
      * intros l Hl Hin. rewrite Hh1 in Hin. apply in_app_iff in Hin.
        destruct Hin as [Hin|[E|[]]].
        -- apply (Hfresh l); [simpl; lia|assumption].
        -- apply col_name_inj in E. lia.
      * split; [assumption|]. rewrite Hh', Hh1. simpl.
        now rewrite <- app_assoc.
    + apply add_col_aligned; [assumption|]. apply Hfresh. simpl. lia.
    + simpl. apply in_app_iff. right. now left.
Qed.

(** X8.  When the header of the CSV file has no repeated name and none of
    the names [_geo_admin0], ..., [_geo_admin{n-1}], and its rows are as
    long as the header, then after a join that returns the header is the
    old header followed by these names, every row lists exactly the
    fields of the header in the order of the header, and so every line
    [dump_csv] writes has as many cells as the header line. *)
Theorem join_keeps_rows_aligned (header : list string)
    (body : list (list string)) (long_col lat_col : string)
    (boundary_files : list json) (self : t) :
  let n := List.length boundary_files in
  NoDup header ->
  Forall (fun cells => List.length cells = List.length header) body ->
  (forall l, l < n -> ~ In (col_name l) header) ->
  init (header :: body) long_col lat_col boundary_files = Ok self ->
  DictCSV.header (csv self) = header ++ map col_name (seq 0 n) /\
  aligned (csv self) /\
  List.length (DictCSV.rows (csv self)) = List.length body /\
  Forall (fun line => List.length line
                      = List.length (DictCSV.header (csv self)))
         (dump_csv self).
Proof.
  intros n Hnd Hlen Hfresh H. unfold init in H. bind_inv H. bind_inv H.
  pose proof (mapM_length _ _ _ E) as Hn.
  destruct (init_aligned header body a0 Hnd Hlen E0) as (Ha0 & Hh0).
  assert (Hrows0 : List.length (DictCSV.rows a0) = List.length body).
  { destruct (init_rows header body Hlen) as (csv0 & Hi & _ & Hr).
    rewrite E0 in Hi. injection Hi as <-. now rewrite Hr, length_map. }
  assert (Hmain :
    DictCSV.header (csv self) = header ++ map col_name (seq 0 n) /\
    aligned (csv self)).
  { destruct boundary_files as [|file files].
    - simpl in H. injection H as <-. simpl. rewrite app_nil_r. auto.
    - cbn [List.length Nat.eqb] in H. bind_inv H. injection H as <-.
      simpl csv.
      destruct (join_levels_aligned long_col lat_col a a0 a1 0 Ha0)
        as (Ha & Hh); [|assumption|].
      + intros l Hl. rewrite Hh0. apply Hfresh. unfold n. lia.
      + split; [|assumption]. rewrite Hh, Hh0. unfold n. now rewrite <- Hn. }
  destruct Hmain as (Hh & Ha). split; [assumption|]. split; [assumption|].
  assert (Hlenrows : List.length (DictCSV.rows (csv self)) = List.length body).
  { destruct boundary_files as [|file files].
    - simpl in H. now injection H as <-.
    - cbn [List.length Nat.eqb] in H. bind_inv H. injection H as <-.
      simpl csv.
      assert (Hpre : forall bs csv1 csv2 level,
                join_levels long_col lat_col csv1 level bs = Ok csv2 ->
                List.length (DictCSV.rows csv2)
                = List.length (DictCSV.rows csv1)).
      { clear. induction bs as [|b bs IH]; intros csv1 csv2 level H;
          simpl in H; [now injection H as <-|].
        bind_inv H. rewrite (IH _ _ _ H).
        assert (Hrows : forall todo c c' row_id,
                  join_rows b long_col lat_col (col_name level) c row_id todo
                  = Ok c' ->
                  List.length (DictCSV.rows c') = List.length (DictCSV.rows c)).
        { clear. induction todo as [|todo IH]; intros c c' row_id H;
            simpl in H; [now injection H as <-|].
          destruct (nth_error (DictCSV.rows c) row_id) as [row|];
            [|now injection H as <-].
          bind_inv H. rewrite (IH _ _ _ H).
          apply join_row_rows in E. destruct E as (region & -> & _).
          apply list_update_length. }
        rewrite (Hrows _ _ _ _ E). simpl. apply length_map. }
      rewrite (Hpre _ _ _ _ E1). assumption. }
  split; [assumption|].
  unfold dump_csv, DictCSV.dump. constructor; [apply length_map|].
  apply Forall_map. unfold aligned in Ha.
  eapply Forall_impl; [|exact Ha]. simpl. intros row Hrow.
  rewrite <- Hrow. unfold keys. now rewrite !length_map.
Qed.

End Alignment.

(* ================================================================= *)
(** ** What [find] returns, and what it raises *)

Section FindResults.
Context {shapely : Shapely} {numpy : Numpy}.

Import GeoBoundary.

Lemma search_from_sound (places : json) (p : Point) (shapes : list Shape) :
  forall (idx : nat) (found : list json),
    search_from places p idx shapes = Ok found ->
    Forall (fun r => exists i s,
              nth_error shapes i = Some s /\ contains s p = true /\
              getitem_int places (idx + i) = Ok r) found /\
    (found = [] <-> forall s, In s shapes -> contains s p = false).
Proof.
  induction shapes as [|s shapes IH]; intros idx found H; simpl in H.
  - injection H as <-. split; [constructor|]. split; [intros _ s []|reflexivity].
  - destruct (contains s p) eqn:Ec.
    + bind_inv H. bind_inv H. injection H as <-.
      destruct (IH _ _ E0) as (Hall & _). split.
      * constructor.
        -- exists 0, s. rewrite Nat.add_0_r. auto.
        -- eapply Forall_impl; [|exact Hall]. simpl.
           intros r (i & s' & H1 & H2 & H3). exists (S i), s'.
           replace (idx + S i) with (S idx + i) by lia. auto.
      * split; [discriminate|]. intros Hno.
        rewrite (Hno s (or_introl eq_refl)) in Ec. discriminate.
    + destruct (IH _ _ H) as (Hall & Hnil). split.
      * eapply Forall_impl; [|exact Hall]. simpl.
        intros r (i & s' & H1 & H2 & H3). exists (S i), s'.
        replace (idx + S i) with (S idx + i) by lia. auto.
      * rewrite Hnil. split.
        -- intros Hno s' [<-|Hin]; [assumption|now apply Hno].
        -- intros Hno s' Hin. apply Hno. now right.
Qed.

Lemma index_from_range (v : nat * float) (l : list float) :
  forall idx k, index_from v idx l = Ok k -> idx <= k < idx + List.length l.
Proof.
  induction l as [|item l IH]; intros idx k H; simpl in H; [discriminate|].
  destruct (Nat.eqb idx (fst v) || PrimFloat.eqb item (snd v)).
  - injection H as <-. simpl. lia.
  - apply IH in H. simpl. lia.
Qed.

(** X9.  A list [find] returns is never empty and holds only regions of
    the boundary: the regions at the positions of the shapes that contain
    the point, or, when no shape contains it, the one region at a position
    of the boundary. *)
Theorem find_returns_regions (self : t) (p : Point) (found : list json) :
  find self p = Ok found ->
  found <> [] /\
  ((exists s, In s (shapes self) /\ contains s p = true) ->
   Forall (fun r => exists i s,
             nth_error (shapes self) i = Some s /\ contains s p = true /\
             getitem_int (places self) i = Ok r) found) /\
  ((forall s, In s (shapes self) -> contains s p = false) ->
   exists r i,
     found = [r] /\ i < List.length (shapes self) /\
     getitem_int (places self) i = Ok r).
Proof.
  intros H. unfold find in H. bind_inv H.
  destruct (search_from_sound _ _ _ _ _ E) as (Hall & Hnil).
  destruct a as [|r0 rest]; simpl in H.
  - bind_inv H. bind_inv H. bind_inv H. bind_inv H. injection H as <-.
    split; [discriminate|]. split.
    + intros (s & Hin & Hc). rewrite (proj1 Hnil eq_refl s Hin) in Hc.
      discriminate.
    + intros _. exists a2, a1. split; [reflexivity|]. split; [|assumption].
      apply index_from_range in E2. simpl in E2.
      unfold distances in E0. bind_inv E0. injection E0 as <-.
      rewrite length_map in E2. apply mapM_length in E4. lia.
  - injection H as <-. split; [discriminate|]. split.
    + intros _. exact Hall.
    + intros Hno. apply Hnil in Hno. discriminate.
Qed.

End FindResults.

Section Resolution.
Context {shapely : Shapely} {numpy : Numpy} {builtins : Builtins}.

Import CSV2GeoJSON.

(** X10.  Resolving a point fails with [ValueError] on a boundary without
    shapes, and with [KeyError] when the region found has no [properties]
    member or its [properties] have no [shapeName]. *)
Theorem region_of_errors (boundary : GeoBoundary.t) (p : Point) :
  (GeoBoundary.shapes boundary = [] ->
   GeoBoundary.find boundary p = Raise ValueError /\
   region_of boundary p = Raise ValueError) /\
  (forall r rest items,
     GeoBoundary.find boundary p = Ok (r :: rest) ->
     r = JObject items ->
     dict_get items "properties" = None \/
     (exists properties,
        dict_get items "properties" = Some (JObject properties) /\
        dict_get properties "shapeName" = None) ->
     region_of boundary p = Raise KeyError).
Proof.
  split.
  - intros Hs. unfold region_of, GeoBoundary.find, GeoBoundary.distances.
    rewrite Hs. simpl. auto.
  - intros r rest items Hfind -> Hno. unfold region_of. rewrite Hfind.
    simpl. unfold dict_item.
    destruct Hno as [-> | (properties & -> & Hn)]; [reflexivity|].
    simpl. unfold dict_item. now rewrite Hn.
Qed.

Lemma join_levels_first_raise (long_col lat_col : string) (csv : DictCSV.t)
    (level : nat) (boundary : GeoBoundary.t) (rest : list GeoBoundary.t)
    (row : dict json) (others : list (dict json)) (e : exn) :
  DictCSV.rows csv = row :: others ->
  (point <- point_of long_col lat_col
              (dict_set row (col_name level) (JString "")) ;;
   region_of boundary point) = Raise e ->
  join_levels long_col lat_col csv level (boundary :: rest) = Raise e.
Proof.
  intros Hrows He. cbn [join_levels].
  assert (Hr : DictCSV.rows (DictCSV.add_col csv (col_name level))
               = dict_set row (col_name level) (JString "")
                 :: map (fun r => dict_set r (col_name level) (JString ""))
                        others)
    by (simpl; now rewrite Hrows).
  rewrite Hr. cbn [List.length join_rows]. rewrite Hr. cbn [nth_error].
  unfold join_row.
  destruct (point_of long_col lat_col _) as [point|e'].
  - cbn [bind] in He |- *. rewrite He. reflexivity.
  - cbn [bind] in He |- *. now injection He as ->.
Qed.

(** X11.  The join has no partial result: when the boundary files load and
    the CSV file is read, an exception raised while the first record is
    resolved against the first boundary is the outcome of the constructor. *)
Theorem join_raises_first_failure (header cells : list string)
    (body : list (list string)) (long_col lat_col : string)
    (file : json) (files : list json) (boundary : GeoBoundary.t)
    (rest : list GeoBoundary.t) (e : exn) :
  mapM GeoBoundary.init (file :: files) = Ok (boundary :: rest) ->
  Forall (fun r => List.length r = List.length cells) body ->
  (point <- point_of long_col lat_col
              (dict_set (dict_zip header (map JString cells))
                        (col_name 0) (JString "")) ;;
   region_of boundary point) = Raise e ->
  init (header :: cells :: body) long_col lat_col (file :: files) = Raise e.
Proof.
  intros Hload Hlen He. unfold init. rewrite Hload. cbn [bind].
  assert (Hrect : DictCSV.np_array (cells :: body) = Ok (cells :: body)).
  { apply (np_array_rectangular _ (List.length cells)).
    constructor; [reflexivity|assumption]. }
  cbn [DictCSV.init]. rewrite Hrect. cbn [bind List.length Nat.eqb].
  erewrite join_levels_first_raise; [reflexivity| |exact He]. reflexivity.
Qed.

Lemma join_levels_no_rows (long_col lat_col : string)
    (boundaries : list GeoBoundary.t) :
  forall (csv : DictCSV.t) (level : nat),
    DictCSV.rows csv = [] ->
    exists csv',
      join_levels long_col lat_col csv level boundaries = Ok csv' /\
      DictCSV.rows csv' = [] /\
      DictCSV.header csv'
      = DictCSV.header csv
        ++ map col_name (seq level (List.length boundaries)).
Proof.
  induction boundaries as [|b rest IH]; intros csv level Hrows;
    cbn [join_levels].
  - exists csv. simpl. now rewrite app_nil_r.
  - assert (Hr : DictCSV.rows (DictCSV.add_col csv (col_name level)) = [])
      by (simpl; now rewrite Hrows).
    rewrite Hr. cbn [List.length join_rows bind].
    destruct (IH (DictCSV.add_col csv (col_name level)) (S level) Hr)
      as (csv' & Hj & Hr' & Hh).
    exists csv'. split; [assumption|]. split; [assumption|].
    rewrite Hh. simpl. now rewrite <- app_assoc.
Qed.

(** X12.  A CSV file that has only its header line is joined without any
    coordinate being read: the constructor returns a table without rows
    whose header has the [n] new names, and there is no marker. *)
Theorem join_of_header_only (header : list string) (long_col lat_col : string)
    (boundary_files : list json) (boundaries : list GeoBoundary.t) :
  mapM GeoBoundary.init boundary_files = Ok boundaries ->
  exists self,
    init [header] long_col lat_col boundary_files = Ok self /\
    DictCSV.rows (csv self) = [] /\
    DictCSV.header (csv self)
    = header ++ map col_name (seq 0 (List.length boundary_files)) /\
    markers self = Ok [].
Proof.
  intros Hload. unfold init. rewrite Hload. cbn [bind DictCSV.init].
  cbn [DictCSV.np_array bind].
  pose proof (mapM_length _ _ _ Hload) as Hn.
  destruct boundary_files as [|file files].
  - simpl. eexists. split; [reflexivity|]. simpl.
    now rewrite app_nil_r.
  - cbn [List.length Nat.eqb].
    match goal with
    | |- context [join_levels _ _ ?table 0 _] =>
        destruct (join_levels_no_rows long_col lat_col boundaries table 0
                    eq_refl)
          as (csv' & Hj & Hr & Hh)
    end.
    rewrite Hj. cbn [bind]. eexists. split; [reflexivity|]. simpl.
    split; [assumption|]. split.
    + rewrite Hh. simpl. now rewrite Hn.
    + unfold markers. simpl. now rewrite Hr.
Qed.

End Resolution.

(* ================================================================= *)
(** ** The option [--bounds] *)

Section CommandLine.

Lemma split_not_nil (sep : ascii) (s : string) : split sep s <> [].
Proof.
  destruct s as [|c s]; simpl; [discriminate|].
  destruct (Ascii.eqb c sep); [discriminate|].
  destruct (split sep s); discriminate.
Qed.

(** X13.  [split] cuts a string at every separator and nowhere else: joining
    the pieces with the separator gives the string back, no piece holds a
    separator, and the pieces are one more than the separators, so there
    is always at least one. *)
Theorem split_round_trip (sep : ascii) (s : string) :
  String.concat (String sep EmptyString) (split sep s) = s /\
  Forall (fun piece => has_char sep piece = false) (split sep s) /\
  List.length (split sep s) = S (count_char sep s).
Proof.
  induction s as [|c s (Hjoin & Hclean & Hcount)]; simpl.
  - repeat split. repeat constructor.
  - pose proof (split_not_nil sep s) as Hne.
    destruct (Ascii.eqb_spec c sep) as [->|Hc].
    + split; [|split].
      * simpl. destruct (split sep s) as [|piece pieces]; [congruence|].
        now rewrite Hjoin.
      * constructor; [reflexivity|assumption].
      * simpl. now rewrite Hcount.
    + destruct (split sep s) as [|piece pieces]; [congruence|].
      split; [|split].
      * simpl in *. destruct pieces; simpl in *; now rewrite Hjoin.
      * inversion Hclean; subst. constructor; [|assumption]. simpl.
        destruct (Ascii.eqb_spec c sep); [contradiction|assumption].
      * simpl in *. assumption.
Qed.

(** X14.  There are no boundary files exactly when the option [--bounds]
    is absent or empty; a value that is not empty is cut at its commas,
    and the file names joined with commas give the value back. *)
Theorem boundary_files_of_empty_iff (bounds : option string) :
  (boundary_files_of bounds = [] <-> bounds = None \/ bounds = Some "") /\
  (forall s, bounds = Some s -> s <> "" ->
     boundary_files_of bounds = split "," s /\
     String.concat "," (boundary_files_of bounds) = s).
Proof.
  split.
  - destruct bounds as [[|c s]|]; simpl.
    + split; auto.
    + split.
      * intros H. exfalso. revert H.
        change (split "," (String c s) <> []). apply split_not_nil.
      * intros [H|H]; discriminate.
    + split; auto.
  - intros s -> Hs. destruct s as [|c s]; [congruence|].
    split; [reflexivity|].
    change (String.concat "," (split "," (String c s)) = String c s).
    apply split_round_trip.
Qed.

End CommandLine.

(* ================================================================= *)
(** ** The columns of the table *)

Section Columns.
Context {builtins : Builtins}.

Import DictCSV.

Lemma column_setitem_cells (c c' : column) (row_id : nat) (v : json) :
  column_setitem c row_id v = Ok c' ->
  column_cell c' row_id = Some (stored c v) /\
  (forall j, j <> row_id -> column_cell c' j = column_cell c j) /\
  (forall v', stored c' v' = stored c v').
Proof.
  destruct c as [w cells|cells]; simpl; intros H; bind_inv H;
    injection H as <-; apply list_setitem_ok in E; destruct E as (Hlt & ->);
    apply Nat.ltb_lt in Hlt; simpl;
    (split; [rewrite nth_error_list_update, Nat.eqb_refl, Hlt; reflexivity|]);
    (split; [|reflexivity]); intros j Hj; rewrite nth_error_list_update;
    now destruct (Nat.eqb_spec j row_id).
Qed.

Lemma set_cols_cells (ks : list string) (row_id : nat) (row : dict json) :
  forall cols cols',
    set_cols cols ks row_id row = Ok cols' ->
    (forall k, ~ In k ks -> dict_get cols' k = dict_get cols k) /\
    (forall k, In k ks ->
       exists c v c',
         dict_get cols k = Some c /\ dict_get row k = Some v /\
         dict_get cols' k = Some c' /\
         column_cell c' row_id = Some (stored c v) /\
         (forall j, j <> row_id -> column_cell c' j = column_cell c j) /\
         (forall v', stored c' v' = stored c v')).
Proof.
  induction ks as [|k ks IH]; intros cols cols' H; simpl in H.
  - injection H as <-. split; [reflexivity|intros k []].
  - bind_inv H. bind_inv H. bind_inv H.
    unfold dict_item in E, E0.
    destruct (dict_get row k) as [v|] eqn:Ev; [|discriminate].
    injection E as <-.
    destruct (dict_get cols k) as [c|] eqn:Ec; [|discriminate].
    injection E0 as <-.
    destruct (column_setitem_cells _ _ _ _ E1) as (Hi & Hj & Hs).
    destruct (IH _ _ H) as (Hout & Hin). split.
    + intros k0 Hk0. rewrite Hout by (intros Hk; apply Hk0; now right).
      apply dict_get_set_other. intros ->. apply Hk0. now left.
    + intros k0 Hk0.
      destruct (in_dec string_dec k0 ks) as [Hks|Hks].
      * destruct (Hin k0 Hks) as (c0 & v0 & c0' & Hc0 & Hv0 & Hc0' & Hi0 & Hj0 & Hs0).
        rewrite dict_get_set in Hc0.
        destruct (String.eqb_spec k k0) as [<-|Hne].
        -- injection Hc0 as <-. rewrite Ev in Hv0. injection Hv0 as <-.
           exists c, v, c0'. repeat split; try assumption.
           ++ now rewrite Hi0, Hs.
           ++ intros j Hne. now rewrite Hj0, Hj.
           ++ intros v'. now rewrite Hs0, Hs.
        -- exists c0, v0, c0'. repeat split; assumption.
      * destruct Hk0 as [<-|Hk0]; [|contradiction].
        exists c, v, a1. rewrite (Hout k Hks), dict_get_set_same.
        repeat split; assumption.
Qed.

(** X15.  What [set_row(row_id, row)] leaves in [cols] when it returns: for
    every field of the header, the cell [row_id] of its column holds what
    the column keeps of the row's value (a numpy column a string cut to
    its width, a list the value itself) and its other cells are as they
    were; the columns of other names are untouched. *)
Theorem set_row_columns (csv csv' : t) (row_id : nat) (row : dict json) :
  set_row csv row_id row = Ok csv' ->
  (forall k, In k (header csv) ->
     exists c v c',
       dict_get (cols csv) k = Some c /\ dict_get row k = Some v /\
       dict_get (cols csv') k = Some c' /\
       column_cell c' row_id = Some (stored c v) /\
       (forall j, j <> row_id -> column_cell c' j = column_cell c j)) /\
  (forall k, ~ In k (header csv) ->
     dict_get (cols csv') k = dict_get (cols csv) k).
Proof.
  unfold set_row. intros H. bind_inv H. bind_inv H. injection H as <-.
  destruct (set_cols_cells _ _ _ _ _ E0) as (Hout & Hin). simpl.
  split; [|assumption].
  intros k Hk. destruct (Hin k Hk) as (c & v & c' & H1 & H2 & H3 & H4 & H5 & _).
  exists c, v, c'. repeat split; assumption.
Qed.

Lemma py_prefix_all (s : string) (w : nat) :
  py_len s <= w -> py_prefix w s = s.
Proof.
  revert w. induction s as [|c s IH]; intros w H; simpl in *;
    [reflexivity|].
  destruct (continuation c); simpl in H.
  - f_equal. now apply IH.
  - destruct w as [|w]; [lia|]. f_equal. apply IH. lia.
Qed.

Lemma fold_left_max_le (l : list nat) :
  forall a, a <= fold_left Nat.max l a /\
            forall x, In x l -> x <= fold_left Nat.max l a.
Proof.
  induction l as [|y l IH]; intros a; simpl.
  - split; [lia|intros x []].
  - destruct (IH (Nat.max a y)) as (Ha & Hl). split; [lia|].
    intros x [<-|Hx]; [lia|now apply Hl].
Qed.

Lemma itemsize_bound (table : list (list string)) (r : list string)
    (s : string) :
  In r table -> In s r -> py_len s <= itemsize table.
Proof.
  intros Hr Hs. unfold itemsize. apply fold_left_max_le.
  apply in_map. apply in_concat. eauto.
Qed.

Lemma dict_get_combine {V} (ks : list string) (vs : list V) (k : string) :
  NoDup ks ->
  forall j, nth_error ks j = Some k -> j < List.length vs ->
            dict_get (combine ks vs) k = nth_error vs j.
Proof.
  intros Hnd. revert vs. induction Hnd as [|k0 ks Hk0 Hnd IH];
    intros [|v vs] [|j] Hj Hlt; simpl in *; try discriminate; try lia.
  - injection Hj as ->. now rewrite String.eqb_refl.
  - destruct (String.eqb_spec k0 k) as [->|Hne].
    + exfalso. apply Hk0. eapply nth_error_In, Hj.
    + apply IH; [assumption|lia].
Qed.

Lemma init_settled (header : list string) (body : list (list string))
    (csv : t) :
  NoDup header ->
  Forall (fun cells => List.length cells = List.length header) body ->
  init (header :: body) = Ok csv ->
  settled csv.
Proof.
  intros Hnd Hlen H. simpl in H. bind_inv H. injection H as <-.
  apply np_array_ok in E. subst a.
  intros i row k Hrow Hk. simpl in *.
  rewrite nth_error_map in Hrow.
  destruct (nth_error body i) as [cells|] eqn:Ecells; [|discriminate].
  injection Hrow as <-.
  pose proof (nth_error_In _ _ Ecells) as Hin.
  rewrite Forall_forall in Hlen. pose proof (Hlen cells Hin) as Hcells.
  apply In_nth_error in Hk. destruct Hk as (j & Hj).
  assert (Hjlt : j < List.length header)
    by (apply nth_error_Some; congruence).
  destruct (nth_error cells j) as [s|] eqn:Es;
    [|apply nth_error_None in Es; lia].
  assert (Hnth : nth j cells "" = s) by now apply nth_error_nth.
  destruct body as [|first rest]; [now destruct i|].
  assert (Hfirst : List.length first = List.length header)
    by (apply Hlen; now left).
  exists (NpColumn (itemsize (first :: rest))
            (map (fun r => nth j r "") (first :: rest))), (JString s).
  rewrite !(dict_zip_nodup header) by assumption.
  split; [|split; [|split]].
  - rewrite (dict_get_combine _ _ _ Hnd j Hj)
      by (unfold transpose; now rewrite !length_map, length_seq, Hfirst).
    unfold transpose. rewrite nth_error_map, nth_error_map.
    rewrite Hfirst, nth_error_seq.
    destruct (Nat.ltb_spec j (List.length header)); [reflexivity|lia].
  - rewrite (dict_get_combine _ _ _ Hnd j Hj)
      by (rewrite length_map; lia).
    now rewrite nth_error_map, Es.
  - cbn [column_cell]. rewrite nth_error_map, Ecells. simpl. now rewrite Hnth.
  - simpl. unfold np_str. f_equal. apply py_prefix_all.
    eapply itemsize_bound; [exact Hin|]. eapply nth_error_In, Es.
Qed.

Lemma add_col_settled (csv : t) (name : string) :
  settled csv -> settled (add_col csv name).
Proof.
  intros Hs i row' k Hrow Hk. simpl in *.
  rewrite nth_error_map in Hrow.
  destruct (nth_error (rows csv) i) as [row|] eqn:Erow; [|discriminate].
  injection Hrow as <-. rewrite !dict_get_set.
  destruct (String.eqb_spec name k) as [<-|Hne].
  - eexists _, _. split; [reflexivity|]. split; [reflexivity|].
    split; [|reflexivity]. simpl.
    rewrite map_map, nth_error_map, Erow. reflexivity.
  - apply in_app_iff in Hk. destruct Hk as [Hk|[E|[]]]; [|congruence].
    exact (Hs i row k Erow Hk).
Qed.

Lemma set_row_settled (csv csv' : t) (row_id : nat) (row : dict json)
    (col : string) (region : json) (c : column) :
  settled csv ->
  nth_error (rows csv) row_id = Some row ->
  dict_get (cols csv) col = Some c ->
  (forall v, stored c v = v) ->
  set_row csv row_id (dict_set row col region) = Ok csv' ->
  settled csv' /\
  exists c', dict_get (cols csv') col = Some c' /\ forall v, stored c' v = v.
Proof.
  intros Hs Hrow Hc Hpy H.
  pose proof (set_row_rows _ _ _ _ H) as (Hlt & Hr & Hh).
  unfold set_row in H. bind_inv H. bind_inv H. injection H as <-.
  destruct (set_cols_cells _ _ _ _ _ E0) as (Hout & Hin). simpl in *.
  split.
  - intros i row' k Hrow' Hk. simpl in *.
    destruct (Hin k Hk) as (c0 & v0 & c0' & Hc0 & Hv0 & Hc0' & Hi & Hj & Hst).
    rewrite Hr, nth_error_list_update in Hrow'.
    destruct (Nat.eqb_spec i row_id) as [->|Hne].
    + apply Nat.ltb_lt in Hlt. rewrite Hlt in Hrow'. injection Hrow' as <-.
      assert (Hkeep : stored c0 v0 = v0).
      { rewrite dict_get_set in Hv0.
        destruct (String.eqb_spec col k) as [<-|Hck].
        - rewrite Hc in Hc0. injection Hc0 as <-. apply Hpy.
        - destruct (Hs row_id row k Hrow Hk)
            as (c1 & v1 & Hc1 & Hv1 & _ & Hs1).
          congruence. }
      exists c0', v0. repeat split; try assumption.
      * now rewrite Hi, Hkeep.
      * now rewrite Hst.
    + destruct (Hs i row' k Hrow' Hk) as (c1 & v1 & Hc1 & Hv1 & Hcell & Hs1).
      rewrite Hc0 in Hc1. injection Hc1 as <-.
      exists c0', v1. repeat split; try assumption.
      * now rewrite Hj.
      * now rewrite Hst.
  - destruct (in_dec string_dec col (header csv)) as [Hk|Hk].
    + destruct (Hin col Hk) as (c0 & v0 & c0' & Hc0 & _ & Hc0' & _ & _ & Hst).
      rewrite Hc in Hc0. injection Hc0 as <-.
      exists c0'. split; [assumption|]. intros v. now rewrite Hst.
    + exists c. rewrite (Hout col Hk). auto.
Qed.

End Columns.

Section Mirror.
Context {shapely : Shapely} {numpy : Numpy} {builtins : Builtins}.

Import CSV2GeoJSON.

Lemma join_rows_settled (boundary : GeoBoundary.t)
    (long_col lat_col col : string) (todo : nat) :
  forall (csv csv' : DictCSV.t) (row_id : nat),
    settled csv ->
    (exists c, dict_get (DictCSV.cols csv) col = Some c /\
               forall v, stored c v = v) ->
    join_rows boundary long_col lat_col col csv row_id todo = Ok csv' ->
    settled csv'.
Proof.
  induction todo as [|todo IH]; intros csv csv' row_id Hs Hcol H; simpl in H.
  - now injection H as <-.
  - destruct (nth_error (DictCSV.rows csv) row_id) as [row|] eqn:E;
      [|now injection H as <-].
    bind_inv H. unfold join_row in E0. bind_inv E0. bind_inv E0.
    destruct Hcol as (c & Hc & Hpy).
    destruct (set_row_settled _ _ _ _ _ _ _ Hs E Hc Hpy E0) as (Hs' & Hcol').
    exact (IH _ _ _ Hs' Hcol' H).
Qed.

Lemma join_levels_settled (long_col lat_col : string)
    (boundaries : list GeoBoundary.t) :
  forall (csv csv' : DictCSV.t) (level : nat),
    settled csv ->
    join_levels long_col lat_col csv level boundaries = Ok csv' ->
    settled csv'.
Proof.
  induction boundaries as [|b rest IH]; intros csv csv' level Hs H;
    simpl in H.
  - now injection H as <-.
  - bind_inv H. apply (IH _ _ (S level)) in H; [assumption|].
    eapply join_rows_settled; [| |exact E].
    + now apply add_col_settled.
    + simpl. rewrite dict_get_set_same. eexists. split; [reflexivity|].
      reflexivity.
Qed.

(** X16.  The two views of the table agree after a join.  When the header
    of the CSV file has no repeated name and its rows are as long as the
    header, then in the table of a constructor that returns, joined or
    not, the cell [i] of the column of every field of the header is the
    value of that field in row [i]. *)
Theorem join_keeps_columns_mirrored (header : list string)
    (body : list (list string)) (long_col lat_col : string)
    (boundary_files : list json) (self : t) :
  NoDup header ->
  Forall (fun cells => List.length cells = List.length header) body ->
  init (header :: body) long_col lat_col boundary_files = Ok self ->
  mirrored (csv self).
Proof.
  intros Hnd Hlen H. unfold init in H. bind_inv H. bind_inv H.
  pose proof (init_settled header body a0 Hnd Hlen E0) as Hs.
  assert (Hs' : settled (csv self)).
  { destruct (Nat.eqb (List.length boundary_files) 0).
    - now injection H as <-.
    - bind_inv H. injection H as <-. simpl.
      eapply join_levels_settled; eassumption. }
  intros i row k Hrow Hk.
  destruct (Hs' i row k Hrow Hk) as (c & v & Hc & Hv & Hcell & _).
  now exists c, v.
Qed.

End Mirror.

(* ================================================================= *)
(** ** Whole runs *)

Section EndToEnd.
Context {shapely : Shapely} {numpy : Numpy} {builtins : Builtins}.

Import CSV2GeoJSON.

(** X17.  The boundary files are loaded before the CSV file is opened, in
    the order given: the exception of the first boundary file that does
    not load is the outcome of the constructor, and of the run, whatever
    the CSV file and the later boundary files are. *)
Theorem first_unloadable_boundary_aborts (csv_file : list (list string))
    (long_col lat_col : string) (good rest : list json) (bad : json)
    (e : exn) :
  Forall (fun file => is_ok (GeoBoundary.init file) = true) good ->
  GeoBoundary.init bad = Raise e ->
  init csv_file long_col lat_col (good ++ bad :: rest) = Raise e /\
  main csv_file long_col lat_col (good ++ bad :: rest) = Raise e.
Proof.
  intros Hgood Hbad.
  assert (H : init csv_file long_col lat_col (good ++ bad :: rest) = Raise e).
  { unfold init. rewrite (mapM_first_raise _ good rest bad e);
      [reflexivity| |assumption].
    intros file Hin. rewrite Forall_forall in Hgood.
    apply is_ok_true, Hgood, Hin. }
  split; [assumption|]. unfold main. now rewrite H.
Qed.

Lemma find_no_shapes (boundary : GeoBoundary.t) (p : Point) :
  GeoBoundary.shapes boundary = [] ->
  GeoBoundary.find boundary p = Raise ValueError.
Proof.
  intros Hs. unfold GeoBoundary.find, GeoBoundary.distances.
  now rewrite Hs.
Qed.

(** X18.  A boundary file whose [features] are empty loads, and a join
    against it fails: with such a file first and a first record whose
    coordinates are read, the constructor raises [ValueError], the
    exception of [min] on the empty list of distances. *)
Theorem join_with_empty_boundary_raises (header cells : list string)
    (body : list (list string)) (long_col lat_col : string)
    (file : json) (files : list json) (places : json) (p : Point) :
  getitem file "features" = Ok places ->
  iter places = Ok [] ->
  is_ok (mapM GeoBoundary.init files) = true ->
  Forall (fun r => List.length r = List.length cells) body ->
  point_of long_col lat_col
    (dict_set (dict_zip header (map JString cells)) (col_name 0) (JString ""))
  = Ok p ->
  (exists boundary,
     GeoBoundary.init file = Ok boundary /\
     GeoBoundary.shapes boundary = [] /\
     forall q, GeoBoundary.find boundary q = Raise ValueError) /\
  init (header :: cells :: body) long_col lat_col (file :: files)
  = Raise ValueError.
Proof.
  intros Hf Hi Hrest Hlen Hp.
  assert (Hb : GeoBoundary.init file
               = Ok {| GeoBoundary.data := file; GeoBoundary.places := places;
                       GeoBoundary.shapes := [] |}).
  { unfold GeoBoundary.init. rewrite Hf. cbn [bind]. now rewrite Hi. }
  split.
  - eexists. split; [exact Hb|]. split; [reflexivity|].
    intros q. now apply find_no_shapes.
  - apply is_ok_true in Hrest. destruct Hrest as (rest & Hrest).
    unfold init. cbn [mapM]. rewrite Hb, Hrest. cbn [bind].
    assert (Hrect : DictCSV.np_array (cells :: body) = Ok (cells :: body)).
    { apply (np_array_rectangular _ (List.length cells)).
      constructor; [reflexivity|assumption]. }
    cbn [DictCSV.init]. rewrite Hrect. cbn [bind List.length Nat.eqb].
    erewrite join_levels_first_raise; [reflexivity|reflexivity|].
    rewrite Hp. cbn [bind]. unfold region_of.
    now rewrite find_no_shapes.
Qed.

Lemma point_of_coordinates (long_col lat_col : string) (row : dict json)
    (p : Point) :
  point_of long_col lat_col row = Ok p ->
  coordinate row long_col = Ok (px p) /\ coordinate row lat_col = Ok (py p).
Proof.
  unfold point_of, coordinate. intros H.
  bind_inv H. bind_inv H. bind_inv H. bind_inv H. injection H as <-.
  rewrite E, E0. simpl. auto.
Qed.

(** X19.  A whole run.  When the boundary files load, the rows of the CSV
    file are as long as its header and every record resolves at every
    level, [main] hands to [json.dump] a [FeatureCollection] with one
    marker per record, in the order of the file: the marker of a record is
    at the point read from the record and its properties are the record
    with the names of its regions. *)
Theorem main_emits_joined_markers (header : list string)
    (body : list (list string)) (long_col lat_col : string)
    (boundary_files : list json) (boundaries : list GeoBoundary.t) :
  let n := List.length boundary_files in
  let record cells := dict_zip header (map JString cells) in
  Forall (fun cells => List.length cells = List.length header) body ->
  mapM GeoBoundary.init boundary_files = Ok boundaries ->
  (forall l, l < n -> col_name l <> long_col /\ col_name l <> lat_col) ->
  Forall (fun cells => exists p,
            point_of long_col lat_col (record cells) = Ok p /\
            Forall (fun b => exists name, region_of b p = Ok name) boundaries)
         body ->
  exists features,
    main (header :: body) long_col lat_col boundary_files
    = Ok (JObject [("type", JString "FeatureCollection");
                   ("features", JArray features)]) /\
    Forall2 (fun cells feature => exists p names,
               point_of long_col lat_col (record cells) = Ok p /\
               Forall2 (fun b name => region_of b p = Ok name)
                       boundaries names /\
               feature = marker (augment (record cells) 0 names)
                                (px p) (py p))
            body features.
Proof.
  intros n record Hlen Hload Hclash Hall.
  assert (Hn : List.length boundaries = n)
    by (eapply mapM_length, Hload).
  destruct (init_rows header body Hlen) as (csv0 & Hinit & Hheader & Hrows).
  pose proof (init_ready header body csv0 Hlen Hinit) as Hready.
  pose proof (init_uniform header body csv0 Hlen Hinit) as Hu.
  destruct (join_levels_ok long_col lat_col boundaries csv0 0 Hready Hu)
    as (csv' & Hjoin & _ & Hrel & _ & _).
  { intros l Hl. apply Hclash. lia. }
  { rewrite Hrows. apply Forall_map. exact Hall. }
  assert (Hself :
    init (header :: body) long_col lat_col boundary_files
    = Ok {| CSV2GeoJSON.boundaries := boundaries; csv := csv';
            CSV2GeoJSON.long_col := long_col;
            CSV2GeoJSON.lat_col := lat_col |}).
  { unfold init. rewrite Hload. cbn [bind]. rewrite Hinit. cbn [bind].
    destruct boundary_files as [|file files].
    - cbn. injection Hload as <-. cbn in Hjoin. now injection Hjoin as <-.
    - cbn [List.length Nat.eqb]. now rewrite Hjoin. }
  unfold main. rewrite Hself. cbn [bind]. unfold dump_markers, markers.
  cbn [csv].
  rewrite Hrows in Hrel. fold record in Hrel.
  assert (Hm : exists features,
            mapM (to_feature
                    {| CSV2GeoJSON.boundaries := boundaries; csv := csv';
                       CSV2GeoJSON.long_col := long_col;
                       CSV2GeoJSON.lat_col := lat_col |})
                 (DictCSV.rows csv') = Ok features /\
            Forall2 (fun cells feature => exists p names,
               point_of long_col lat_col (record cells) = Ok p /\
               Forall2 (fun b name => region_of b p = Ok name)
                       boundaries names /\
               feature = marker (augment (record cells) 0 names)
                                (px p) (py p))
              body features).
  { clear - Hrel Hn Hclash. revert Hrel. generalize (DictCSV.rows csv').
    induction body as [|cells body IH]; intros rows' Hrel;
      inversion Hrel as [|? out ? outs Hout Hrest]; subst.
    - exists []. split; [reflexivity|constructor].
    - destruct (IH outs Hrest) as (features & Hm & Hf).
      destruct Hout as (p & names & Hp & Hnames & ->).
      exists (marker (augment (record cells) 0 names) (px p) (py p)
              :: features).
      split.
      + cbn [mapM]. rewrite Hm.
        destruct (point_of_coordinates _ _ _ _ Hp) as (Hx & Hy).
        pose proof (Forall2_length Hnames) as Hl.
        rewrite (to_feature_ok _ _ (px p) (py p)); [reflexivity| |].
        * unfold coordinate in *. cbn [CSV2GeoJSON.long_col].
          unfold dict_item in *. rewrite augment_get_other; [assumption|].
          intros l Hlt. apply Hclash. lia.
        * unfold coordinate in *. cbn [CSV2GeoJSON.lat_col].
          unfold dict_item in *. rewrite augment_get_other; [assumption|].
          intros l Hlt. apply Hclash. lia.
      + constructor; [|assumption]. now exists p, names. }
  destruct Hm as (features & Hm & Hf).
  exists features. rewrite Hm. split; [reflexivity|assumption].
Qed.

End EndToEnd.

Section Written.
Context {shapely : Shapely} {numpy : Numpy} {builtins : Builtins}.

Import CSV2GeoJSON.

(** The values of an augmented row, when the new names are not fields
    yet: the names come last, in the order of the levels. *)
Lemma augment_values_fresh (names : list json) (row : dict json)
    (level : nat) :
  (forall l, level <= l < level + List.length names ->
             ~ In (col_name l) (keys row)) ->
  map snd (augment row level names) = map snd row ++ names.
Proof.
  revert row level. induction names as [|name names IH]; intros row level H;
    simpl.
  - now rewrite app_nil_r.
  - rewrite IH.
    + rewrite dict_set_fresh by (apply H; simpl; lia).
      now rewrite map_app, <- app_assoc.
    + intros l Hl Hin. apply dict_set_keys in Hin.
      destruct Hin as [Hin|E].
      * apply (H l); [simpl; lia|assumption].
      * apply col_name_inj in E. lia.
Qed.

(** X20.  The CSV file of a run.  When the header has no repeated name and
    none of the new names, the rows are as long as the header, the
    boundary files load and every record resolves at every level, the
    constructor returns and [dump_csv] writes the header followed by the
    new names, then for every line of the input, in order, its cells
    followed by the names of its regions. *)
Theorem dump_csv_appends_region_names (header : list string)
    (body : list (list string)) (long_col lat_col : string)
    (boundary_files : list json) (boundaries : list GeoBoundary.t) :
  let n := List.length boundary_files in
  let record cells := dict_zip header (map JString cells) in
  NoDup header ->
  Forall (fun cells => List.length cells = List.length header) body ->
  mapM GeoBoundary.init boundary_files = Ok boundaries ->
  (forall l, l < n -> col_name l <> long_col /\ col_name l <> lat_col /\
                      ~ In (col_name l) header) ->
  Forall (fun cells => exists p,
            point_of long_col lat_col (record cells) = Ok p /\
            Forall (fun b => exists name, region_of b p = Ok name) boundaries)
         body ->
  exists self lines,
    init (header :: body) long_col lat_col boundary_files = Ok self /\
    dump_csv self
    = map JString (header ++ map col_name (seq 0 n)) :: lines /\
    Forall2 (fun cells line => exists p names,
               point_of long_col lat_col (record cells) = Ok p /\
               Forall2 (fun b name => region_of b p = Ok name)
                       boundaries names /\
               line = map JString cells ++ names)
            body lines.
Proof.
  intros n record Hnd Hlen Hload Hclash Hall.
  assert (Hn : List.length boundaries = n)
    by (eapply mapM_length, Hload).
  destruct (init_rows header body Hlen) as (csv0 & Hinit & Hheader & Hrows).
  pose proof (init_ready header body csv0 Hlen Hinit) as Hready.
  pose proof (init_uniform header body csv0 Hlen Hinit) as Hu.
  destruct (join_levels_ok long_col lat_col boundaries csv0 0 Hready Hu)
    as (csv' & Hjoin & Hheader' & Hrel & _ & _).
  { intros l Hl. split; apply Hclash; lia. }
  { rewrite Hrows. apply Forall_map. exact Hall. }
  assert (Hself :
    init (header :: body) long_col lat_col boundary_files
    = Ok {| CSV2GeoJSON.boundaries := boundaries; csv := csv';
            CSV2GeoJSON.long_col := long_col;
            CSV2GeoJSON.lat_col := lat_col |}).
  { unfold init. rewrite Hload. cbn [bind]. rewrite Hinit. cbn [bind].
    destruct boundary_files as [|file files].
    - cbn. injection Hload as <-. cbn in Hjoin. now injection Hjoin as <-.
    - cbn [List.length Nat.eqb]. now rewrite Hjoin. }
  eexists _, (map (map snd) (DictCSV.rows csv')).
  split; [exact Hself|]. split.
  - unfold dump_csv, DictCSV.dump. cbn [csv].
    now rewrite Hheader', Hheader, Hn.
  - rewrite Hrows in Hrel. fold record in Hrel.
    clear - Hrel Hn Hlen Hnd Hclash. revert Hrel Hlen.
    generalize (DictCSV.rows csv').
    induction body as [|cells body IH]; intros rows' Hrel Hlen;
      inversion Hrel as [|? out ? outs Hout Hrest]; subst; simpl;
      constructor.
    + destruct Hout as (p & names & Hp & Hnames & ->).
      exists p, names. split; [assumption|]. split; [assumption|].
      assert (Hcells : List.length cells = List.length header)
        by now inversion Hlen.
      pose proof (Forall2_length Hnames) as Hl.
      rewrite augment_values_fresh.
      * f_equal. unfold record.
        rewrite (dict_zip_nodup header (map JString cells) Hnd).
        rewrite map_snd_combine, <- Hcells, <- (length_map JString cells).
        apply firstn_all.
      * intros l Hlt Hin. destruct (Hclash l) as (_ & _ & Hfresh); [lia|].
        apply Hfresh.
        apply (dict_zip_keys header (map JString cells)); [|assumption].
        now rewrite length_map.
    + apply IH; [assumption|]. now inversion Hlen.
Qed.

End Written.

(* ================================================================= *)
(** ** Distances that are not numbers *)

Section NotANumber.
Context {shapely : Shapely} {numpy : Numpy}.

Import GeoBoundary.

Lemma ltb_nan (x y : float) : is_nan y = true -> PrimFloat.ltb x y = false.
Proof.
  unfold is_nan. rewrite FloatAxioms.eqb_spec, FloatAxioms.ltb_spec.
  unfold SFeqb, SFltb, SFcompare.
  destruct (Prim2SF y) as [[]|[]| |[] m e]; simpl; try discriminate;
    try (now destruct (Prim2SF x) as [[]|[]| |[] ? ?]);
    rewrite Z.compare_refl, Pos.compare_cont_refl; discriminate.
Qed.

Lemma min_from_nan (best : nat * float) (l : list float) :
  is_nan (snd best) = true -> forall idx, min_from best idx l = best.
Proof.
  intros Hnan. induction l as [|item l IH]; intros idx; simpl;
    [reflexivity|].
  now rewrite (ltb_nan item (snd best) Hnan).
Qed.

Lemma search_from_none (places : json) (p : Point) (shapes : list Shape) :
  (forall s, In s shapes -> contains s p = false) ->
  forall idx, search_from places p idx shapes = Ok [].
Proof.
  induction shapes as [|s shapes IH]; intros Hno idx; simpl; [reflexivity|].
  rewrite (Hno s (or_introl eq_refl)). apply IH.
  intros s' Hin. apply Hno. now right.
Qed.

(** X21.  A distance that is not a number decides the fallback: when no
    shape contains the point and the distance to the first region is NaN,
    [min] keeps it against every other distance and [find] returns the
    first region, however near the others are. *)
Theorem fallback_with_nan_first (self : t) (p : Point) (d : float)
    (ds : list float) (place : json) :
  (forall s, In s (shapes self) -> contains s p = false) ->
  distances self p = Ok (d :: ds) ->
  is_nan d = true ->
  getitem_int (places self) 0 = Ok place ->
  py_min (d :: ds) = Ok (0, d) /\
  index (d :: ds) (0, d) = Ok 0 /\
  find self p = Ok [place].
Proof.
  intros Hno Hds Hnan Hplace.
  assert (Hmin : py_min (d :: ds) = Ok (0, d))
    by (simpl; now rewrite (min_from_nan (0, d) ds Hnan)).
  split; [assumption|]. split; [reflexivity|].
  unfold find. rewrite (search_from_none _ _ _ Hno). cbn [bind List.length Nat.eqb].
  rewrite Hds. cbn [bind]. rewrite Hmin. cbn [bind].
  unfold index. cbn [index_from fst Nat.eqb orb bind]. now rewrite Hplace.
Qed.

End NotANumber.

(* ================================================================= *)
(** ** The table, the join and the runs on the examples *)

Section TableScenarios.

Import Examples.

(** No name of the example's header is repeated. *)
Lemma two_records_header :
  NoDup ["id"; "longitude"; "latitude"].
Proof.
  repeat constructor; simpl; intuition discriminate.
Defined.

(** The example with two records is written back as it was read. *)
Lemma dump_after_init_witness :
  exists csv,
    DictCSV.init two_records = Ok csv /\
    DictCSV.dump csv = map (map JString) two_records.
Proof.
  eexists. split; [reflexivity|].
  apply (dump_after_init ["id"; "longitude"; "latitude"]
           [["a"; "1"; "1"]; ["b"; "10"; "10"]]).
  - exact two_records_header.
  - repeat constructor.
  - reflexivity.
Defined.

(** A line with a cell too many under a header of one name. *)
Lemma init_rows_zip_witness :
  exists csv,
    DictCSV.init [["a"]; ["1"; "2"]] = Ok csv /\
    DictCSV.rows csv = [[("a", JString "1")]].
Proof.
  eexists. split; [reflexivity|].
  destruct (init_rows_zip ["a"] [["1"; "2"]] _
              (NoDup_cons "a" (@in_nil string "a") (NoDup_nil string))
              eq_refl) as (_ & Hrows & _).
  exact Hrows.
Defined.

(** A row of the example replaced, and read back. *)
Lemma get_row_after_set_row_witness :
  exists table table',
    DictCSV.init two_records = Ok table /\
    DictCSV.set_row (builtins := decimal) table 1
      [("id", JString "c"); ("longitude", JString "3");
       ("latitude", JString "4")] = Ok table' /\
    DictCSV.get_row table' 1
    = Ok [("id", JString "c"); ("longitude", JString "3");
          ("latitude", JString "4")] /\
    DictCSV.get_row table' 0 = DictCSV.get_row table 0.
Proof.
  eexists. eexists. split; [reflexivity|]. split; [reflexivity|].
  match goal with
  | |- DictCSV.get_row ?table' _ = Ok ?row /\ _ = DictCSV.get_row ?table _ =>
      destruct (get_row_after_set_row (builtins := decimal)
                  table table' 1 row eq_refl) as (Hget & Hother & _)
  end.
  split; [exact Hget|]. apply Hother. discriminate.
Defined.

(** A row index past the end, and a row without the field of the header. *)
Lemma set_row_errors_witness :
  exists table,
    DictCSV.init [["a"]; ["1"]] = Ok table /\
    DictCSV.set_row (builtins := decimal) table 1 [("a", JString "2")]
    = Raise IndexError /\
    DictCSV.set_row (builtins := decimal) table 0 [("b", JString "2")]
    = Raise KeyError.
Proof.
  eexists. split; [reflexivity|]. split.
  - eapply (set_row_errors (builtins := decimal)). simpl. lia.
  - eapply (set_row_errors (builtins := decimal)).
    + simpl. lia.
    + right. intros k [<-|[]]. eexists. split; reflexivity.
    + exists "a". split; [now left|]. simpl. intuition discriminate.
Defined.

(** The record [a] of the example, selected by its [id]; there is no field
    [name] to select by. *)
Lemma get_rows_by_col_selects_witness :
  exists table,
    DictCSV.init two_records = Ok table /\
    DictCSV.get_rows_by_col table "id" "a"
    = Ok [[("id", JString "a"); ("longitude", JString "1");
           ("latitude", JString "1")]] /\
    DictCSV.get_rows_by_col table "name" "a" = Raise KeyError.
Proof.
  eexists. split; [reflexivity|].
  split.
  - etransitivity;
      [eapply (proj1 (get_rows_by_col_selects _ "id" "a"))|reflexivity].
    repeat constructor; simpl; auto.
  - eapply (proj2 (proj2 (get_rows_by_col_selects _ "name" "a"))).
    constructor. simpl. intuition discriminate.
Defined.

(** A value longer than the cells of the file is cut in the numpy column
    and kept whole in the row.  The width is the six characters of the
    longest cell, not its seven bytes. *)
Lemma set_row_columns_witness :
  exists table table',
    DictCSV.init [["city"]; [zurich]] = Ok table /\
    DictCSV.set_row (builtins := decimal) table 0
      [("city", JString "Zurich2")] = Ok table' /\
    DictCSV.get_row table' 0 = Ok [("city", JString "Zurich2")] /\
    exists c',
      dict_get (DictCSV.cols table') "city" = Some c' /\
      column_cell c' 0 = Some (JString "Zurich").
Proof.
  eexists. eexists. split; [reflexivity|].
  match goal with
  | |- DictCSV.set_row ?t _ ?r = _ /\ _ => pose (table := t); pose (row := r)
  end.
  split; [reflexivity|]. split; [reflexivity|].
  match goal with
  | |- exists c', dict_get (DictCSV.cols ?t') _ = _ /\ _ =>
      destruct (set_row_columns (builtins := decimal) table t' 0 row eq_refl)
        as (Hin & _)
  end.
  destruct (Hin "city" (or_introl eq_refl))
    as (c & v & c' & Hc & Hv & Hc' & Hcell & _).
  vm_compute in Hc, Hv. injection Hc as <-. injection Hv as <-.
  exists c'. split; [exact Hc'|exact Hcell].
Defined.

End TableScenarios.

Section JoinScenarios.

Import Examples.

#[local] Open Scope float_scope.

(** The joined example: five fields in every row, in the order of the
    header. *)
Lemma join_keeps_rows_aligned_witness :
  exists self,
    @CSV2GeoJSON.init boxes flat decimal two_records "longitude" "latitude"
      [boundary_A; boundary_WE] = Ok self /\
    DictCSV.header (CSV2GeoJSON.csv self)
    = ["id"; "longitude"; "latitude"; "_geo_admin0"; "_geo_admin1"] /\
    aligned (CSV2GeoJSON.csv self).
Proof.
  eexists. split; [reflexivity|].
  edestruct (@join_keeps_rows_aligned boxes flat decimal
               ["id"; "longitude"; "latitude"]
               [["a"; "1"; "1"]; ["b"; "10"; "10"]]
               "longitude" "latitude" [boundary_A; boundary_WE])
    as (Hh & Ha & _).
  - exact two_records_header.
  - repeat constructor.
  - intros [|[|l]] Hl; simpl in *; [intuition discriminate..|lia].
  - reflexivity.
  - split; [exact Hh|exact Ha].
Defined.

(** The point (2, 1) against the two rectangles. *)
Lemma find_returns_regions_witness :
  exists self found,
    @GeoBoundary.init boxes boundary_WE = Ok self /\
    @GeoBoundary.find boxes flat self (mkPoint 2 1) = Ok found /\
    found <> [].
Proof.
  eexists. eexists. split; [reflexivity|].
  match goal with
  | |- GeoBoundary.find ?s _ = _ /\ _ => pose (self := s)
  end.
  split; [reflexivity|].
  match goal with
  | |- ?found <> [] =>
      destruct (@find_returns_regions boxes flat self (mkPoint 2 1) found
                  eq_refl) as (Hne & _)
  end.
  exact Hne.
Defined.

(** The square without a name: the point (1, 1) is found and not named. *)
Lemma region_of_errors_witness :
  exists self,
    @GeoBoundary.init boxes unlabelled = Ok self /\
    @CSV2GeoJSON.region_of boxes flat self (mkPoint 1 1) = Raise KeyError.
Proof.
  eexists. split; [reflexivity|].
  edestruct (@region_of_errors boxes flat) as (_ & Hkey).
  eapply Hkey; [reflexivity|reflexivity|].
  right. eexists. split; reflexivity.
Defined.

(** The file without a latitude column, joined against the square. *)
Lemma join_raises_first_failure_witness :
  @CSV2GeoJSON.init boxes flat decimal no_latitude "longitude" "latitude"
    [boundary_A] = Raise KeyError.
Proof.
  eapply (@join_raises_first_failure boxes flat decimal
            ["id"; "longitude"] ["a"; "1"] []).
  - reflexivity.
  - constructor.
  - reflexivity.
Defined.

(** The header of the example alone, joined against the square. *)
Lemma join_of_header_only_witness :
  exists self,
    @CSV2GeoJSON.init boxes flat decimal [["id"; "longitude"; "latitude"]]
      "longitude" "latitude" [boundary_A] = Ok self /\
    DictCSV.header (CSV2GeoJSON.csv self)
    = ["id"; "longitude"; "latitude"; "_geo_admin0"].
Proof.
  edestruct (@join_of_header_only boxes flat decimal
               ["id"; "longitude"; "latitude"] "longitude" "latitude"
               [boundary_A]) as (self & Hinit & _ & Hh & _);
    [reflexivity|].
  exists self. split; [exact Hinit|exact Hh].
Defined.

(** The columns of the joined example hold what its rows hold. *)
Lemma join_keeps_columns_mirrored_witness :
  exists self,
    @CSV2GeoJSON.init boxes flat decimal two_records "longitude" "latitude"
      [boundary_A; boundary_WE] = Ok self /\
    mirrored (CSV2GeoJSON.csv self).
Proof.
  eexists. split; [reflexivity|].
  eapply (@join_keeps_columns_mirrored boxes flat decimal
            ["id"; "longitude"; "latitude"]
            [["a"; "1"; "1"]; ["b"; "10"; "10"]]
            "longitude" "latitude" [boundary_A; boundary_WE]).
  - exact two_records_header.
  - repeat constructor.
  - reflexivity.
Defined.

(** A second boundary file that is not an object, and no CSV file at all. *)
Lemma first_unloadable_boundary_aborts_witness :
  @CSV2GeoJSON.init boxes flat decimal [] "longitude" "latitude"
    [boundary_A; JNull] = Raise TypeError.
Proof.
  eapply (@first_unloadable_boundary_aborts boxes flat decimal []
            "longitude" "latitude" [boundary_A] [] JNull).
  - repeat constructor.
  - reflexivity.
Defined.

(** The example joined against a collection without features. *)
Lemma join_with_empty_boundary_raises_witness :
  @CSV2GeoJSON.init boxes flat decimal two_records "longitude" "latitude"
    [JObject [("type", JString "FeatureCollection");
              ("features", JArray [])]] = Raise ValueError.
Proof.
  eapply (@join_with_empty_boundary_raises boxes flat decimal
            ["id"; "longitude"; "latitude"] ["a"; "1"; "1"]
            [["b"; "10"; "10"]]).
  - reflexivity.
  - reflexivity.
  - reflexivity.
  - repeat constructor.
  - reflexivity.
Defined.

(** The document written for the example joined at two levels. *)
Lemma main_emits_joined_markers_witness :
  exists features,
    @CSV2GeoJSON.main boxes flat decimal two_records "longitude" "latitude"
      [boundary_A; boundary_WE]
    = Ok (JObject [("type", JString "FeatureCollection");
                   ("features", JArray features)]) /\
    List.length features = 2%nat.
Proof.
  edestruct (@main_emits_joined_markers boxes flat decimal
               ["id"; "longitude"; "latitude"]
               [["a"; "1"; "1"]; ["b"; "10"; "10"]]
               "longitude" "latitude" [boundary_A; boundary_WE])
    as (features & Hmain & Hrel).
  - repeat constructor.
  - reflexivity.
  - intros [|[|l]] Hl; [split; discriminate..|simpl in Hl; lia].
  - repeat constructor; eexists; (split; [reflexivity|]);
      repeat constructor; eexists; reflexivity.
  - exists features. split; [exact Hmain|].
    symmetry. exact (Forall2_length Hrel).
Defined.

(** The CSV file written for the example joined at two levels. *)
Lemma dump_csv_appends_region_names_witness :
  exists self lines,
    @CSV2GeoJSON.init boxes flat decimal two_records "longitude" "latitude"
      [boundary_A; boundary_WE] = Ok self /\
    CSV2GeoJSON.dump_csv self
    = map JString ["id"; "longitude"; "latitude";
                   "_geo_admin0"; "_geo_admin1"] :: lines /\
    List.length lines = 2%nat.
Proof.
  edestruct (@dump_csv_appends_region_names boxes flat decimal
               ["id"; "longitude"; "latitude"]
               [["a"; "1"; "1"]; ["b"; "10"; "10"]]
               "longitude" "latitude" [boundary_A; boundary_WE])
    as (self & lines & Hinit & Hdump & Hrel).
  - exact two_records_header.
  - repeat constructor.
  - reflexivity.
  - intros [|[|l]] Hl; simpl in *; [intuition discriminate..|lia].
  - repeat constructor; eexists; (split; [reflexivity|]);
      repeat constructor; eexists; reflexivity.
  - exists self, lines. split; [exact Hinit|]. split; [exact Hdump|].
    symmetry. exact (Forall2_length Hrel).
Defined.

(** A point whose longitude is not a number, against the two rectangles:
    the western one, the first, is the answer. *)
Lemma fallback_with_nan_first_witness :
  exists self,
    @GeoBoundary.init boxes boundary_WE = Ok self /\
    @GeoBoundary.find boxes flat self (mkPoint nan 0)
    = Ok [region "W" (rectangle 0 0 1 2)].
Proof.
  eexists. split; [reflexivity|].
  eapply (@fallback_with_nan_first boxes flat).
  - intros s [<-|[<-|[]]]; reflexivity.
  - reflexivity.
  - reflexivity.
  - reflexivity.
Defined.

(** Two file names in the option. *)
Lemma boundary_files_of_empty_iff_witness :
  boundary_files_of (Some "adm0.json,adm1.json") = ["adm0.json"; "adm1.json"] /\
  boundary_files_of (Some "") = [].
Proof.
  destruct (boundary_files_of_empty_iff (Some "adm0.json,adm1.json"))
    as (_ & Hcut).
  destruct (Hcut "adm0.json,adm1.json" eq_refl) as (Hsplit & _);
    [discriminate|].
  split; [exact Hsplit|].
  apply (boundary_files_of_empty_iff (Some "")). now right.
Defined.

End JoinScenarios.
